(** * train_classifier.py: the training script of the disaster response pipeline

    A shallow embedding of [models/train_classifier.py].  The script is glue
    around NLTK, scikit-learn, pandas and SQLAlchemy: the functions of the
    script itself are embedded as Rocq functions, the calls into those
    libraries are parameters of the sections below, and the file system the
    script writes to is an explicit state.

    Strings are byte strings ([string] over [ascii]); the characters outside
    ASCII have no case and are not alphanumeric for the regular expression of
    [tokenize]. *)

From Stdlib Require Import Ascii ZArith QArith Lia.
From Stdlib Require DecimalString DecimalNat.
From stdpp Require Import base option list strings gmap.

Local Open Scope Z_scope.

(** ** Python primitives the script relies on *)

Module Py.

(** Exceptions the modelled calls raise. *)
Inductive exn :=
| IndexError
| ValueError (msg : string)
| AttributeError (msg : string)
| KeyError (msg : string)
| OSError (msg : string)
| DatabaseError (msg : string).

(** A call either raises or returns. *)
Inductive result (A : Type) :=
| Raise (e : exn)
| Return (a : A).
Arguments Raise {A} e.
Arguments Return {A} a.

#[global] Instance result_ret : MRet result := λ A a, Return a.

#[global] Instance result_bind : MBind result := λ A B k r,
  match r with
  | Raise e => Raise e
  | Return a => k a
  end.

Definition is_upper (c : ascii) : bool :=
  let n := nat_of_ascii c in (65 <=? n)%nat && (n <=? 90)%nat.

Definition is_lower (c : ascii) : bool :=
  let n := nat_of_ascii c in (97 <=? n)%nat && (n <=? 122)%nat.

Definition is_digit (c : ascii) : bool :=
  let n := nat_of_ascii c in (48 <=? n)%nat && (n <=? 57)%nat.

(** [c.lower()] on one character. *)
Definition lower_char (c : ascii) : ascii :=
  if is_upper c then ascii_of_nat (nat_of_ascii c + 32) else c.

Fixpoint map_chars (f : ascii → ascii) (s : string) : string :=
  match s with
  | EmptyString => EmptyString
  | String c s' => String (f c) (map_chars f s')
  end.

(** [s.lower()] *)
Definition lower (s : string) : string := map_chars lower_char s.

(** The character class [[a-zA-Z0-9]]. *)
Definition alnum (c : ascii) : bool := is_lower c || is_upper c || is_digit c.

(** [re.sub(r'[^a-zA-Z0-9]', repl, s)] for a one-character [repl]: the
    pattern matches one character at a time. *)
Definition re_sub_non_alnum (repl : ascii) (s : string) : string :=
  map_chars (λ c, if alnum c then c else repl) s.

Definition chars (s : string) : list ascii := String.list_ascii_of_string s.

(** [s.split(sep)] for a one-character separator: every occurrence of the
    separator ends a field, so neighbouring separators give empty fields
    and the result is never the empty list. *)
Fixpoint split (sep : ascii) (s : string) : list string :=
  match s with
  | EmptyString => [EmptyString]
  | String c s' =>
      if decide (c = sep) then EmptyString :: split sep s'
      else match split sep s' with
           | [] => [String c EmptyString]
           | w :: ws => String c w :: ws
           end
  end.

(** [sep.join(l)] *)
Fixpoint join (sep : string) (l : list string) : string :=
  match l with
  | [] => EmptyString
  | [w] => w
  | w :: ws => w +:+ sep +:+ join sep ws
  end.

(** Truth value of a string: the empty string is false. *)
Definition truthy (s : string) : bool :=
  match s with EmptyString => false | _ => true end.

(** [list(filter(None, l))] on a list of strings. *)
Definition filter_none (l : list string) : list string := List.filter truthy l.

(** Slice bounds: a negative bound counts from the end, and both ends are
    clamped to the list. *)
Definition slice_bound (len i : Z) : Z :=
  if i <? 0 then Z.max (i + len) 0 else Z.min i len.

(** [l[start:stop]] *)
Definition slice {A} (l : list A) (start stop : Z) : list A :=
  let len := Z.of_nat (length l) in
  let lo := slice_bound len start in
  let hi := slice_bound len stop in
  take (Z.to_nat (hi - lo)) (drop (Z.to_nat lo) l).

(** [l[i]] for [i >= 0]. *)
Definition getitem {A} (l : list A) (i : nat) : result A :=
  match l !! i with
  | Some a => Return a
  | None => Raise IndexError
  end.

(** [w in l] on a list of strings. *)
Definition contains (l : list string) (w : string) : bool :=
  bool_decide (w ∈ l).

End Py.

Import Py.

(** ** [tokenize] *)

(** Part of speech handed to the lemmatizer: [lemmatize(w)] uses the default,
    the noun; the second pass says [pos='v']. *)
Inductive pos := NOUN | VERB.

Section Tokenize.

(** The three NLTK entry points the function calls. *)
Variable word_tokenize : string → list string.
Variable stop_words : list string.           (* stopwords.words('english') *)
Variable lemmatize : string → pos → string.  (* WordNetLemmatizer().lemmatize *)

Definition normalize (text : string) : string :=
  re_sub_non_alnum " " (lower text).

Definition drop_stop_words (words : list string) : list string :=
  List.filter (λ w, negb (contains stop_words w)) words.

Definition tokenize (text : string) : list string :=
  let text := normalize text in
  let words := word_tokenize text in
  let words := drop_stop_words words in
  let lem := map (λ w, lemmatize w NOUN) words in
  let lem := map (λ w, lemmatize w VERB) lem in
  lem.

End Tokenize.

(** ** The NLTK resources, as far as the examples below exercise them

    NLTK is a third-party library; [tokenize] above takes its three entry
    points as parameters.  This module gives the values they have on the
    inputs of the examples. *)

Module Nltk.

(** [stopwords.words('english')], the 179 entries of the NLTK corpus. *)
Definition stop_words : list string :=
  [ "i"; "me"; "my"; "myself"; "we"; "our"; "ours"; "ourselves"; "you";
    "you're"; "you've"; "you'll"; "you'd"; "your"; "yours"; "yourself";
    "yourselves"; "he"; "him"; "his"; "himself"; "she"; "she's"; "her";
    "hers"; "herself"; "it"; "it's"; "its"; "itself"; "they"; "them";
    "their"; "theirs"; "themselves"; "what"; "which"; "who"; "whom";
    "this"; "that"; "that'll"; "these"; "those"; "am"; "is"; "are"; "was";
    "were"; "be"; "been"; "being"; "have"; "has"; "had"; "having"; "do";
    "does"; "did"; "doing"; "a"; "an"; "the"; "and"; "but"; "if"; "or";
    "because"; "as"; "until"; "while"; "of"; "at"; "by"; "for"; "with";
    "about"; "against"; "between"; "into"; "through"; "during"; "before";
    "after"; "above"; "below"; "to"; "from"; "up"; "down"; "in"; "out";
    "on"; "off"; "over"; "under"; "again"; "further"; "then"; "once";
    "here"; "there"; "when"; "where"; "why"; "how"; "all"; "any"; "both";
    "each"; "few"; "more"; "most"; "other"; "some"; "such"; "no"; "nor";
    "not"; "only"; "own"; "same"; "so"; "than"; "too"; "very"; "s"; "t";
    "can"; "will"; "just"; "don"; "don't"; "should"; "should've"; "now";
    "d"; "ll"; "m"; "o"; "re"; "ve"; "y"; "ain"; "aren"; "aren't";
    "couldn"; "couldn't"; "didn"; "didn't"; "doesn"; "doesn't"; "hadn";
    "hadn't"; "hasn"; "hasn't"; "haven"; "haven't"; "isn"; "isn't"; "ma";
    "mightn"; "mightn't"; "mustn"; "mustn't"; "needn"; "needn't"; "shan";
    "shan't"; "shouldn"; "shouldn't"; "wasn"; "wasn't"; "weren";
    "weren't"; "won"; "won't"; "wouldn"; "wouldn't" ].

(** The Treebank tokenizer cuts these words in two wherever they stand as
    a word of their own. *)
Definition split_contraction (w : string) : list string :=
  if decide (w = "cannot") then ["can"; "not"]
  else if decide (w = "gimme") then ["gim"; "me"]
  else if decide (w = "gonna") then ["gon"; "na"]
  else if decide (w = "gotta") then ["got"; "ta"]
  else if decide (w = "lemme") then ["lem"; "me"]
  else if decide (w = "wanna") then ["wan"; "na"]
  else [w].

(** [word_tokenize] on a text of lowercase letters, digits and spaces,
    which is all that [tokenize] hands to it: with no punctuation left the
    text is one sentence, cut at the spaces and at the contractions. *)
Definition word_tokenize (text : string) : list string :=
  flat_map split_contraction (filter_none (split " " text)).

(** [WordNetLemmatizer().lemmatize] on the words of the examples: WordNet
    has the noun [bottle] for [bottles] and lists [done] as a form of the
    verb [do]; the other words of the examples are their own lemma, and
    this table returns every word it does not list unchanged. *)
Definition lemmatize (w : string) (p : pos) : string :=
  match p with
  | NOUN => if decide (w = "bottles") then "bottle" else w
  | VERB => if decide (w = "done") then "do" else w
  end.

End Nltk.

(** ** What [tokenize] guarantees *)

Definition lower_alnum (c : ascii) : bool := is_lower c || is_digit c.

(** A token of lowercase letters and digits, at least one. *)
Definition clean_token (w : string) : Prop :=
  w ≠ EmptyString ∧ Forall (λ c, lower_alnum c = true) (chars w).

(** A text of lowercase letters, digits and spaces. *)
Definition normal_text (t : string) : Prop :=
  Forall (λ c, lower_alnum c = true ∨ c = " "%char) (chars t).

(** What the proofs ask of the tokenizer: on a normal text every token is a
    non-empty run of characters of the text, none of them a space. *)
Definition cuts_words (word_tokenize : string → list string) : Prop :=
  ∀ t, normal_text t →
    Forall (λ tok, tok ≠ EmptyString ∧
                   Forall (λ c, c ∈ chars t ∧ c ≠ " "%char) (chars tok))
           (word_tokenize t).

(** What they ask of the lemmatizer: a lemma of a clean token is clean. *)
Definition keeps_clean (lemmatize : string → pos → string) : Prop :=
  ∀ w p, clean_token w → clean_token (lemmatize w p).

(** ** Tables and the evaluation report *)

Definition LF : ascii := "010"%char.
Definition TAB : ascii := "009"%char.

(** A cell of a dataframe; [F] is the type of Python's floats. *)
Inductive cell (F : Type) :=
| CStr (s : string)
| CInt (n : Z)
| CFloat (x : F).
Arguments CStr {F} s.
Arguments CInt {F} n.
Arguments CFloat {F} x.

(** A pandas dataframe: the column labels and the rows. *)
Record DataFrame (F : Type) := {
  columns : list string;
  rows : list (list (cell F));
}.
Arguments columns {F} d.
Arguments rows {F} d.

(** The cells of the column called [name], [None] without such a column. *)
Definition column {F} (name : string) (df : DataFrame F) : option (list (cell F)) :=
  i ← list_find (λ c, c = name) (columns df) ≫= (λ p, Some p.1);
  mapM (λ r : list (cell F), r !! i) (rows df).

(** [df.iloc[:, k:]] *)
Definition iloc_columns_from {F} (k : nat) (df : DataFrame F) : DataFrame F :=
  {| columns := drop k (columns df); rows := map (drop k) (rows df) |}.

(** The rows at the given positions, in the order given. *)
Definition take_rows {A} (idx : list nat) (l : list A) : list A :=
  omap (λ i, l !! i) idx.

(** One dictionary [row] of [classification_report_df]. *)
Record report_row (F : Type) := {
  class : string;
  precision : F;
  recall : F;
  f1_score : F;
  support : F;
}.
Arguments class {F} r.
Arguments precision {F} r.
Arguments recall {F} r.
Arguments f1_score {F} r.
Arguments support {F} r.

(** [pd.DataFrame.from_dict(report_data)] on a list of such dictionaries:
    the keys, in insertion order, are the columns; an empty list gives a
    frame without columns. *)
Definition DataFrame_from_dict {F} (report_data : list (report_row F)) : DataFrame F :=
  match report_data with
  | [] => {| columns := []; rows := [] |}
  | _ =>
      {| columns := ["class"; "precision"; "recall"; "f1_score"; "support"];
         rows := map (λ r, [CStr (class r); CFloat (precision r);
                            CFloat (recall r); CFloat (f1_score r);
                            CFloat (support r)]) report_data |}
  end.

Section Report.

Context {F : Type}.

(** Python's [float(s)]; [None] stands for the [ValueError] it raises. *)
Variable float : string → option F.

Definition py_float (s : string) : result F :=
  match float s with
  | Some x => Return x
  | None => Raise (ValueError "could not convert string to float")
  end.

(** The body of the loop of [classification_report_df], in the order the
    subscripts and conversions are evaluated. *)
Definition report_row_of_line (line : string) : result (report_row F) :=
  let row_data := split " " line in
  let row_data := filter_none row_data in
  c ← getitem row_data 0;
  p ← getitem row_data 1 ≫= py_float;
  r ← getitem row_data 2 ≫= py_float;
  f ← getitem row_data 3 ≫= py_float;
  s ← getitem row_data 4 ≫= py_float;
  mret {| class := c; precision := p; recall := r; f1_score := f; support := s |}.

(** The [for] loop: [report_data] grows by one row per line, and the first
    line that raises ends the loop. *)
Fixpoint report_rows (lines : list string) (report_data : list (report_row F))
  : result (list (report_row F)) :=
  match lines with
  | [] => Return report_data
  | line :: lines' =>
      row ← report_row_of_line line;
      report_rows lines' (report_data ++ [row])
  end.

Definition classification_report_df (report : string) : result (DataFrame F) :=
  let lines := split LF report in
  report_data ← report_rows (slice lines 2 (-6)) [];
  mret (DataFrame_from_dict report_data).

End Report.

(** Following the words of the specification: the non-empty fields of a line
    that whitespace separates, where whitespace is a space, a tab, a line
    feed, a vertical tab, a form feed or a carriage return. *)
Fixpoint spec_whitespace_fields_aux (cur : string) (s : string) : list string :=
  match s with
  | EmptyString => if truthy cur then [String.rev cur] else []
  | String c s' =>
      if Ascii.is_space c
      then (if truthy cur then [String.rev cur] else [])
             ++ spec_whitespace_fields_aux EmptyString s'
      else spec_whitespace_fields_aux (String c cur) s'
  end.

Definition spec_whitespace_fields (line : string) : list string :=
  spec_whitespace_fields_aux EmptyString line.

(** The fields the code works with: the line cut at the space character. *)
Definition space_fields (line : string) : list string :=
  filter_none (split " " line).

(** The lines of a report that [classification_report_df] reads: those at
    the positions [2 <= i < n - 6] of the [n] lines. *)
Definition parsed_lines (report : string) : list string :=
  let lines := split LF report in
  take (length lines - 8)%nat (drop 2%nat lines).

(** A line with five fields or more, the second to the fifth of which
    [float] reads; [row] is the row made of the first five. *)
Definition line_gives {F} (float : string → option F)
    (fields : string → list string) (line : string) (row : report_row F) : Prop :=
  ∃ p r f s rest,
    fields line = class row :: p :: r :: f :: s :: rest ∧
    float p = Some (precision row) ∧ float r = Some (recall row) ∧
    float f = Some (f1_score row) ∧ float s = Some (support row).

Definition well_formed_line {F} (float : string → option F)
    (fields : string → list string) (line : string) : Prop :=
  ∃ row, line_gives float fields line row.

(** ** A reader of decimal numerals *)

Module Decimal.

(** The value of a non-empty run of decimal digits. *)
Definition digits_value (s : string) : option nat :=
  if truthy s
  then d ← DecimalString.NilEmpty.uint_of_string s; Some (Nat.of_uint d)
  else None.

(** An instance of [float] for the examples.  It reads the plain decimal
    numerals a classification report prints: digits, optionally followed by
    a point and more digits.  Python's [float] reads further forms (signs,
    exponents, [inf], [nan]); none occurs in the examples. *)
Definition float (s : string) : option Q :=
  match split "." s with
  | [a] => n ← digits_value a; Some (inject_Z (Z.of_nat n))
  | [a; b] =>
      n ← digits_value a;
      m ← digits_value b;
      let scale := (10 ^ String.length b)%nat in
      Some (Z.of_nat (n * scale + m) # Pos.of_nat scale)
  | _ => None
  end.

(** [str(n)] for a natural number. *)
Definition str_nat (n : nat) : string :=
  DecimalString.NilEmpty.string_of_uint (Nat.to_uint n).

(** [str(n)] for an integer. *)
Definition str_Z (n : Z) : string :=
  if n <? 0 then "-" +:+ str_nat (Z.to_nat (- n)) else str_nat (Z.to_nat n).

End Decimal.

(** ** The scikit-learn objects [build_model] puts together *)

(** A value of the parameter grid. *)
Inductive pyval :=
| PNone
| PInt (n : Z).

(** [CountVectorizer(tokenizer=..., ngram_range=..., max_df=...,
    max_features=...)]; [max_df] is a float, a share of the documents. *)
Record CountVectorizer := {
  tokenizer : string → list string;
  ngram_range : nat * nat;
  max_df : Q;
  max_features : option Z;
}.

Inductive classifier :=
| LinearSVC
| OneVsRestClassifier (estimator : classifier)
| MultiOutputClassifier (estimator : classifier).

(** A step of a pipeline; a pipeline is a step too. *)
#[warnings="-register-all"] Inductive step :=
| Vect (v : CountVectorizer)
| TfidfTransformer
| Clf (c : classifier)
| Pipeline (steps : list (string * step)).

(** One setting of the grid: parameter names and their values. *)
Definition params := list (string * pyval).

(** [GridSearchCV(estimator=..., param_grid=..., scoring=..., n_jobs=...,
    verbose=...)] with the defaults [cv=None] and [refit=True]; the last
    two fields are the attributes [fit] sets. *)
Record GridSearchCV (W : Type) := {
  estimator : step;
  param_grid : list (string * list pyval);
  scoring : string;
  n_jobs : option Z;
  cv : option nat;
  refit : bool;
  verbose : Z;
  best_estimator_ : option (step * W);
  best_params_ : option params;
}.
Arguments estimator {W} g.
Arguments param_grid {W} g.
Arguments scoring {W} g.
Arguments n_jobs {W} g.
Arguments cv {W} g.
Arguments refit {W} g.
Arguments verbose {W} g.
Arguments best_estimator_ {W} g.
Arguments best_params_ {W} g.

Module Sklearn.

(** [ParameterGrid]: every combination of one value per name. *)
Fixpoint ParameterGrid (grid : list (string * list pyval)) : list params :=
  match grid with
  | [] => [[]]
  | (name, values) :: grid' =>
      v ← values; ps ← ParameterGrid grid'; [(name, v) :: ps]
  end.

(** [key.partition('__')]: the text before the first double underscore and,
    when there is one, the text after it. *)
Fixpoint partition_dunder (key : string) : string * option string :=
  match key with
  | EmptyString => (EmptyString, None)
  | String "_" (String "_" sub) => (EmptyString, Some sub)
  | String c key' =>
      let '(name, sub) := partition_dunder key' in (String c name, sub)
  end.

(** [set_params] for one name: a name [step__sub] is resolved in the step
    called [step] of a pipeline.  Of the parameters of the steps only
    [max_features] of the vectorizer is modelled as settable, being the one
    the grid of [build_model] names. *)
Fixpoint set_param (s : step) (key : string) (v : pyval) : result step :=
  match s with
  | Vect cv =>
      if decide (key = "max_features") then
        Return (Vect {| tokenizer := tokenizer cv; ngram_range := ngram_range cv;
                        max_df := max_df cv;
                        max_features := match v with
                                        | PNone => None
                                        | PInt n => Some n
                                        end |})
      else Raise (ValueError "Invalid parameter")
  | Pipeline steps =>
      match partition_dunder key with
      | (name, Some sub) =>
          (fix go (l : list (string * step)) : result (list (string * step)) :=
             match l with
             | [] => Raise (ValueError "Invalid parameter")
             | (n, st) :: l' =>
                 if decide (n = name)
                 then st' ← set_param st sub v; Return ((n, st') :: l')
                 else l'' ← go l'; Return ((n, st) :: l'')
             end) steps ≫= (λ steps', Return (Pipeline steps'))
      | (_, None) => Raise (ValueError "Invalid parameter")
      end
  | _ => Raise (ValueError "Invalid parameter")
  end.

Fixpoint set_params (s : step) (ps : params) : result step :=
  match ps with
  | [] => Return s
  | (key, v) :: ps' => s' ← set_param s key v; set_params s' ps'
  end.

(** The document-frequency ceiling of the vectorizer: a term found in [df]
    of [n_docs] documents stays when [df <= max_df * n_docs]. *)
Definition within_max_df (max_df : Q) (n_docs df : nat) : bool :=
  Qle_bool (inject_Z (Z.of_nat df)) (max_df * inject_Z (Z.of_nat n_docs)).

(** *** The layout of [classification_report]

    The text scikit-learn (from version 0.20 on) prints for multilabel
    targets, which [classification_report_df] reads back by position. *)

Fixpoint spaces (n : nat) : string :=
  match n with
  | O => EmptyString
  | S n' => String " " (spaces n')
  end.

(** ["{:>w}".format(s)] *)
Definition rjust (w : nat) (s : string) : string :=
  spaces (w - String.length s) +:+ s.

(** The lines of a report below the header: one per label and four
    averages. *)
Inductive report_line :=
| Label (j : nat)
| MicroAvg
| MacroAvg
| WeightedAvg
| SamplesAvg.

Definition is_indicator_cell {F} (c : cell F) : bool :=
  match c with
  | CInt 0 | CInt 1 => true
  | _ => false
  end.

Definition is_indicator_value (v : Z) : bool := (v =? 0) || (v =? 1).

(** The targets this model covers: a 0/1 matrix of at least one row and at
    least two columns, a name per column, and predictions of the same shape
    and kind. *)
Definition multilabel_targets {F} (Y_true : DataFrame F) (Y_pred : list (list Z))
    (target_names : list string) : bool :=
  let k := length (columns Y_true) in
  bool_decide (2 ≤ k)%nat && bool_decide (length target_names = k)
  && bool_decide (1 ≤ length (rows Y_true))%nat
  && bool_decide (length Y_pred = length (rows Y_true))
  && forallb (λ r, bool_decide (length r = k) && forallb is_indicator_cell r)
       (rows Y_true)
  && forallb (λ r, bool_decide (length r = k) && forallb is_indicator_value r)
       Y_pred.

(** The support of label [j]: the rows of [Y_true] that carry it. *)
Definition label_support {F} (Y_true : DataFrame F) (j : nat) : nat :=
  length (List.filter (λ r : list (cell F),
                         match r !! j with
                         | Some (CInt 1) => true
                         | _ => false
                         end) (rows Y_true)).

Definition line_heading (target_names : list string) (l : report_line) : string :=
  match l with
  | Label j => default EmptyString (target_names !! j)
  | MicroAvg => "micro avg"
  | MacroAvg => "macro avg"
  | WeightedAvg => "weighted avg"
  | SamplesAvg => "samples avg"
  end.

Definition line_support {F} (Y_true : DataFrame F) (l : report_line) : nat :=
  match l with
  | Label j => label_support Y_true j
  | _ => sum_list (map (label_support Y_true) (seq 0 (length (columns Y_true))))
  end.

Section Layout.

Context {F : Type}.

(** The three numbers of a line, as printed with two decimals: precision,
    recall and F1.  Their computation stays inside the library. *)
Variable scores : DataFrame F → list (list Z) → report_line → string * string * string.

(** What the library answers for targets outside [multilabel_targets]. *)
Variable other_report : DataFrame F → list (list Z) → list string → result string.

Definition width (target_names : list string) : nat :=
  Nat.max (Nat.max (max_list (map String.length target_names))
                   (String.length "weighted avg")) 2.

Definition head_line (target_names : list string) : string :=
  rjust (width target_names) "" +:+ " " +:+ " " +:+ rjust 9 "precision"
    +:+ " " +:+ rjust 9 "recall" +:+ " " +:+ rjust 9 "f1-score"
    +:+ " " +:+ rjust 9 "support".

(** [row_fmt]: the heading right-justified, then the four numbers, each
    right-justified in nine columns behind a space. *)
Definition row_fmt (w : nat) (heading p r f s : string) : string :=
  rjust w heading +:+ " " +:+ " " +:+ rjust 9 p +:+ " " +:+ rjust 9 r
    +:+ " " +:+ rjust 9 f +:+ " " +:+ rjust 9 s.

Definition report_row_line (Y_true : DataFrame F) (Y_pred : list (list Z))
    (target_names : list string) (l : report_line) : string :=
  let '(p, r, f) := scores Y_true Y_pred l in
  row_fmt (width target_names) (line_heading target_names l) p r f
    (Decimal.str_nat (line_support Y_true l)).

(** The report on multilabel targets, every line ended by a line feed and
    hence an empty piece after the last: the header, an empty line, a line
    per label in the order of the columns, an empty line, and the lines of
    the four averages. *)
Definition report_lines (Y_true : DataFrame F) (Y_pred : list (list Z))
    (target_names : list string) : list string :=
  [head_line target_names; EmptyString]
  ++ map (λ j, report_row_line Y_true Y_pred target_names (Label j))
       (seq 0 (length (columns Y_true)))
  ++ [EmptyString]
  ++ map (report_row_line Y_true Y_pred target_names)
       [MicroAvg; MacroAvg; WeightedAvg; SamplesAvg]
  ++ [EmptyString].

(** [classification_report(Y_true, Y_pred, target_names=...)] *)
Definition classification_report (Y_true : DataFrame F) (Y_pred : list (list Z))
    (target_names : list string) : result string :=
  if multilabel_targets Y_true Y_pred target_names
  then Return (join (String LF "") (report_lines Y_true Y_pred target_names))
  else other_report Y_true Y_pred target_names.

End Layout.

End Sklearn.

(** ** The world of the script: files, output and library calls *)

(** What [pickle.dump] can be handed: a fitted pipeline (the steps and the
    fitted state [W]) or a grid search object. *)
Inductive pyobj (W : Type) :=
| ObjPipeline (p : step) (w : W)
| ObjGridSearchCV (m : GridSearchCV W).
Arguments ObjPipeline {W} p w.
Arguments ObjGridSearchCV {W} m.

(** A file: a pickled object or an SQLite database with its tables. *)
Inductive file (F W : Type) :=
| Pickle (o : pyobj W)
| Sqlite (tables : gmap string (DataFrame F)).
Arguments Pickle {F W} o.
Arguments Sqlite {F W} tables.

(** What the script does to the outside, in the order it does it. *)
Inductive event (F W : Type) :=
| Print (s : string)
| ReadSqlTable (database table : string)
| TrainTestSplit (n_samples : nat)
| Fit
| Predict
| ClassificationReport
| PickleDump (path : string) (o : pyobj W)
| ToSql (database table : string) (df : DataFrame F).
Arguments Print {F W} s.
Arguments ReadSqlTable {F W} database table.
Arguments TrainTestSplit {F W} n_samples.
Arguments Fit {F W}.
Arguments Predict {F W}.
Arguments ClassificationReport {F W}.
Arguments PickleDump {F W} path o.
Arguments ToSql {F W} database table df.

(** The third-party functions the script calls, whose results it only passes
    on.  [F] is the type of floats, [W] the fitted state of an estimator. *)
Record Libraries (F W : Type) := {
  (** Python's [float(s)], [None] for a [ValueError] *)
  float_of_string : string → option F;
  (** NLTK *)
  nltk_word_tokenize : string → list string;
  nltk_stop_words : list string;
  nltk_lemmatize : string → pos → string;
  (** the random split of [n] samples: positions of the training rows and
      of the test rows *)
  shuffle_split : nat → result (list nat * list nat);
  (** the cross-validated search and the refit: the position of the best
      setting among the candidates and the fitted state *)
  grid_search : step → list params → list (cell F) → DataFrame F → result (nat * W);
  (** the predictions of a fitted pipeline *)
  predict : step → W → list (cell F) → result (list (list Z));
  (** the numbers of the classification report *)
  report_scores : DataFrame F → list (list Z) → Sklearn.report_line →
                  string * string * string;
  report_otherwise : DataFrame F → list (list Z) → list string → result string;
  (** a failure of the environment at an input or output operation *)
  io_fault : event F W → gmap string (file F W) → option exn;
}.
Arguments float_of_string {F W} l.
Arguments nltk_word_tokenize {F W} l.
Arguments nltk_stop_words {F W} l.
Arguments nltk_lemmatize {F W} l.
Arguments shuffle_split {F W} l.
Arguments grid_search {F W} l.
Arguments predict {F W} l.
Arguments report_scores {F W} l.
Arguments report_otherwise {F W} l.
Arguments io_fault {F W} l.

(** The outcome of a run: what it returned or raised, the files it leaves
    and the events it caused. *)
Record outcome (F W A : Type) := {
  value : result A;
  disk : gmap string (file F W);
  log : list (event F W);
}.
Arguments value {F W A} o.
Arguments disk {F W A} o.
Arguments log {F W A} o.

(** A computation of the script: from the files it finds to an outcome. *)
Definition M (F W A : Type) : Type := gmap string (file F W) → outcome F W A.

#[global] Instance M_ret {F W} : MRet (M F W) := λ A a fs,
  {| value := Return a; disk := fs; log := [] |}.

#[global] Instance M_bind {F W} : MBind (M F W) := λ A B k m fs,
  let o := m fs in
  match value o with
  | Raise e => {| value := Raise e; disk := disk o; log := log o |}
  | Return a =>
      let o' := k a (disk o) in
      {| value := value o'; disk := disk o'; log := log o ++ log o' |}
  end.

Section Script.

Context {F W : Type}.
Variable L : Libraries F W.

Definition raise {A} (e : exn) : M F W A := λ fs,
  {| value := Raise e; disk := fs; log := [] |}.

Definition lift {A} (r : result A) : M F W A := λ fs,
  {| value := r; disk := fs; log := [] |}.

Definition emit (e : event F W) : M F W unit := λ fs,
  {| value := Return (); disk := fs; log := [e] |}.

Definition print (s : string) : M F W unit := emit (Print s).

(** An input or output operation: it is logged, fails when the environment
    fails it, and otherwise acts on the files. *)
Definition io {A} (e : event F W)
    (act : gmap string (file F W) → result A * gmap string (file F W)) : M F W A :=
  λ fs,
    match io_fault L e fs with
    | Some x => {| value := Raise x; disk := fs; log := [e] |}
    | None => {| value := (act fs).1; disk := (act fs).2; log := [e] |}
    end.

(** [pd.read_sql_table(table, con=engine)] on an SQLite file.  Opening a
    path without a file leaves an empty database there. *)
Definition read_sql_table (table database : string) : M F W (DataFrame F) :=
  io (ReadSqlTable database table) (λ fs,
    match fs !! database with
    | Some (Sqlite tables) =>
        match tables !! table with
        | Some df => (Return df, fs)
        | None => (Raise (ValueError "Table not found"), fs)
        end
    | Some (Pickle _) => (Raise (DatabaseError "file is not a database"), fs)
    | None => (Raise (ValueError "Table not found"), <[database := Sqlite ∅]> fs)
    end).

(** [df[name]] *)
Definition getcolumn (df : DataFrame F) (name : string) : result (list (cell F)) :=
  match column name df with
  | Some cells => Return cells
  | None => Raise (KeyError name)
  end.

Definition load_data (database_filepath : string)
  : M F W (list (cell F) * DataFrame F * list string) :=
  df ← read_sql_table "Categorized_Messages" database_filepath;
  X ← lift (getcolumn df "message");
  let Y := iloc_columns_from 4 df in
  let category_names := columns (iloc_columns_from 4 df) in
  mret (X, Y, category_names).

Definition build_model : GridSearchCV W :=
  let pipeline :=
    Pipeline [
      ("text_pipeline", Pipeline [
         ("vect", Vect {| tokenizer := tokenize (nltk_word_tokenize L)
                                         (nltk_stop_words L) (nltk_lemmatize L);
                          ngram_range := (1%nat, 2%nat);
                          max_df := 1 # 2;
                          max_features := None |});
         ("tfidf", TfidfTransformer)]);
      ("multi_clf", Clf (MultiOutputClassifier (OneVsRestClassifier LinearSVC)))] in
  let parameters := [("text_pipeline__vect__max_features", [PNone; PInt 10000])] in
  {| estimator := pipeline; param_grid := parameters; scoring := "f1_macro";
     n_jobs := Some 1; cv := None; refit := true; verbose := 10;
     best_estimator_ := None; best_params_ := None |}.

(** [train_test_split(X, Y, test_size=0.2)]: the library draws the rows of
    each part. *)
Definition train_test_split (X : list (cell F)) (Y : DataFrame F)
  : M F W (list (cell F) * list (cell F) * DataFrame F * DataFrame F) :=
  emit (TrainTestSplit (length X));;
  '(train, test) ← lift (shuffle_split L (length X));
  mret (take_rows train X, take_rows test X,
        {| columns := columns Y; rows := take_rows train (rows Y) |},
        {| columns := columns Y; rows := take_rows test (rows Y) |}).

(** [model.fit(X_train, Y_train)]: the search over the candidates of the
    grid; the best setting and the pipeline refitted with it become
    attributes of the model. *)
Definition fit (model : GridSearchCV W) (X_train : list (cell F))
    (Y_train : DataFrame F) : M F W (GridSearchCV W) :=
  emit Fit;;
  let candidates := Sklearn.ParameterGrid (param_grid model) in
  '(i, w) ← lift (grid_search L (estimator model) candidates X_train Y_train);
  best_params ← lift (getitem candidates i);
  best ← lift (Sklearn.set_params (estimator model) best_params);
  mret {| estimator := estimator model; param_grid := param_grid model;
          scoring := scoring model; n_jobs := n_jobs model; cv := cv model;
          refit := refit model; verbose := verbose model;
          best_estimator_ := Some (best, w);
          best_params_ := Some best_params |}.

(** [model.predict(X)]: the prediction of the refitted best pipeline. *)
Definition model_predict (model : GridSearchCV W) (X : list (cell F))
  : M F W (list (list Z)) :=
  match best_estimator_ model with
  | None => raise (AttributeError "best_estimator_")
  | Some (est, w) => emit Predict;; lift (predict L est w X)
  end.

Definition classification_report (Y_true : DataFrame F) (Y_pred : list (list Z))
    (target_names : list string) : M F W string :=
  emit ClassificationReport;;
  lift (Sklearn.classification_report (report_scores L) (report_otherwise L)
          Y_true Y_pred target_names).

Definition repr_pyval (v : pyval) : string :=
  match v with
  | PNone => "None"
  | PInt n => Decimal.str_Z n
  end.

(** [repr] of a dictionary of parameters. *)
Definition repr_params (ps : params) : string :=
  "{" +:+ join ", " (map (λ kv : string * pyval,
                            "'" +:+ kv.1 +:+ "': " +:+ repr_pyval kv.2) ps)
      +:+ "}".

Definition evaluate_model (model : GridSearchCV W) (X_test : list (cell F))
    (Y_test : DataFrame F) (category_names : list string) : M F W (DataFrame F) :=
  Y_pred ← model_predict model X_test;
  shown ← classification_report Y_test Y_pred category_names;
  print shown;;
  report ← classification_report Y_test Y_pred category_names;
  df_report ← lift (classification_report_df (float_of_string L) report);
  match best_params_ model with
  | None => raise (AttributeError "best_params_")
  | Some ps =>
      print (String LF "Best Parameters: " +:+ repr_params ps);;
      mret df_report
  end.

(** [pickle.dump(obj, open(path, 'wb'))] *)
Definition pickle_dump (o : pyobj W) (path : string) : M F W unit :=
  io (PickleDump path o) (λ fs, (Return (), <[path := Pickle o]> fs)).

Definition save_model (model : GridSearchCV W) (model_filepath : string) : M F W unit :=
  match best_estimator_ model with
  | None => raise (AttributeError "best_estimator_")
  | Some (est, w) => pickle_dump (ObjPipeline est w) model_filepath
  end.

(** What [to_sql] does when the table exists. *)
Inductive if_exists_policy := IfExistsFail | IfExistsReplace | IfExistsAppend.

(** [df.to_sql(name, engine, index=False, if_exists=...)] on an SQLite file:
    a path without a file gets a new database. *)
Definition to_sql (df : DataFrame F) (name database : string)
    (if_exists : if_exists_policy) : M F W unit :=
  io (ToSql database name df) (λ fs,
    match fs !! database with
    | Some (Pickle _) => (Raise (DatabaseError "file is not a database"), fs)
    | Some (Sqlite tables) =>
        match tables !! name, if_exists with
        | Some _, IfExistsFail => (Raise (ValueError "Table already exists"), fs)
        | Some old, IfExistsAppend =>
            (Return (),
             <[database := Sqlite (<[name := {| columns := columns old;
                                                rows := rows old ++ rows df |}]>
                                     tables)]> fs)
        | _, _ => (Return (), <[database := Sqlite (<[name := df]> tables)]> fs)
        end
    | None => (Return (), <[database := Sqlite {[name := df]}]> fs)
    end).

Definition save_report (df_report : DataFrame F) : M F W unit :=
  to_sql df_report "df_report" "data/DisasterResponse.db" IfExistsReplace.

Definition usage : string :=
  "Please provide the filepath of the disaster messages database "
  +:+ "as the first argument and the filepath of the pickle file to "
  +:+ "save the model to as the second argument. " +:+ String LF (String LF
  "Example: python "
  +:+ "train_classifier.py ../data/DisasterResponse.db classifier.pkl").

(** [main], with [sys.argv] as its argument. *)
Definition main (argv : list string) : M F W unit :=
  match argv with
  | [_; database_filepath; model_filepath] =>
      print ("Loading data..." +:+ String LF "    DATABASE: "
             +:+ database_filepath);;
      '(X, Y, category_names) ← load_data database_filepath;
      '(X_train, X_test, Y_train, Y_test) ← train_test_split X Y;
      print "Building model...";;
      let model := build_model in
      print "Training model...";;
      model ← fit model X_train Y_train;
      print "Evaluating model...";;
      df_report ← evaluate_model model X_test Y_test category_names;
      print ("Saving model..." +:+ String LF "    MODEL: " +:+ model_filepath);;
      save_model model model_filepath;;
      print "Trained model saved!";;
      save_report df_report;;
      print "Model performance score saved!"
  | _ => print usage
  end.

End Script.

(** ** A small world to run the script in *)

Module Demo.

(** A split without shuffling: the first fifth of the rows, rounded up, is
    the test part. *)
Definition first_fifth (n : nat) : result (list nat * list nat) :=
  if (n <? 2)%nat then Raise (ValueError "too few samples")
  else let k := ((n + 4) / 5)%nat in Return (seq k (n - k), seq 0 k).

(** Libraries that never fail: the search takes the first candidate, the
    fitted state is the number of labels, the prediction is all zeros. *)
Definition libs : Libraries Q nat := {|
  float_of_string := Decimal.float;
  nltk_word_tokenize := Nltk.word_tokenize;
  nltk_stop_words := Nltk.stop_words;
  nltk_lemmatize := Nltk.lemmatize;
  shuffle_split := first_fifth;
  grid_search := λ _ _ _ Y, Return (0%nat, length (columns Y));
  predict := λ _ w X, Return (map (λ _, replicate w 0) X);
  report_scores := λ _ _ _, ("0.50", "0.50", "0.50");
  report_otherwise := λ _ _ _, Raise (ValueError "unsupported targets");
  io_fault := λ _ _, None;
|}.

(** The same libraries in an environment where writing to a database
    fails. *)
Definition libs_database_fails : Libraries Q nat := {|
  float_of_string := Decimal.float;
  nltk_word_tokenize := Nltk.word_tokenize;
  nltk_stop_words := Nltk.stop_words;
  nltk_lemmatize := Nltk.lemmatize;
  shuffle_split := first_fifth;
  grid_search := λ _ _ _ Y, Return (0%nat, length (columns Y));
  predict := λ _ w X, Return (map (λ _, replicate w 0) X);
  report_scores := λ _ _ _, ("0.50", "0.50", "0.50");
  report_otherwise := λ _ _ _, Raise (ValueError "unsupported targets");
  io_fault := λ e _, match e with
                     | ToSql _ _ _ => Some (OSError "database is locked")
                     | _ => None
                     end;
|}.

Definition message_row (id : Z) (message : string) (water food : Z) : list (cell Q) :=
  [CInt id; CStr message; CStr message; CStr "direct"; CInt water; CInt food].

Definition message_rows : list (list (cell Q)) :=
  [ message_row 1 "water needed urgently" 1 0;
    message_row 2 "the road is blocked" 0 0;
    message_row 3 "food shortage reported" 0 1;
    message_row 4 "we need water and food" 1 1;
    message_row 5 "no drinking water left" 1 0;
    message_row 6 "please send food" 0 1;
    message_row 7 "thank you" 0 0;
    message_row 8 "water pipes are broken" 1 0;
    message_row 9 "children need food" 0 1;
    message_row 10 "it is raining" 0 0 ].

(** The table of labelled messages, with two categories. *)
Definition messages : DataFrame Q :=
  {| columns := ["id"; "message"; "original"; "genre"; "water"; "food"];
     rows := message_rows |}.

(** The same table with a category whose name holds spaces. *)
Definition messages_spaced : DataFrame Q :=
  {| columns := ["id"; "message"; "original"; "genre"; "x 1 2 3 4"; "food"];
     rows := message_rows |}.

Definition disk_of (table : DataFrame Q) : gmap string (file Q nat) :=
  {[ "data/DisasterResponse.db" := Sqlite {[ "Categorized_Messages" := table ]} ]}.

Definition disk : gmap string (file Q nat) := disk_of messages.

(** A second database next to an older report in the fixed one. *)
Definition disk_two_databases : gmap string (file Q nat) :=
  {[ "data/DisasterResponse.db" :=
       Sqlite {[ "df_report" := {| columns := ["old"]; rows := [[CInt 7]] |} ]};
     "other.db" := Sqlite {[ "Categorized_Messages" := messages ]} ]}.

Definition argv : list string :=
  ["train_classifier.py"; "data/DisasterResponse.db"; "classifier.pkl"].

(** The table with a category of two words, whose report line does not
    read back. *)
Definition messages_worded : DataFrame Q :=
  {| columns := ["id"; "message"; "original"; "genre"; "aid related"; "food"];
     rows := message_rows |}.

(** A table without the column of the messages. *)
Definition messages_untitled : DataFrame Q :=
  {| columns := ["id"; "text"; "original"; "genre"; "water"; "food"];
     rows := message_rows |}.

(** A command line whose model path is the path of the report database. *)
Definition argv_clash : list string :=
  ["train_classifier.py"; "data/DisasterResponse.db";
   "data/DisasterResponse.db"].

(** The report of a run on [messages]: the test part is the first two rows,
    one of which carries [water] and none [food]. *)
Definition report : DataFrame Q :=
  DataFrame_from_dict
    [ {| class := "water"; precision := 50 # 100; recall := 50 # 100;
         f1_score := 50 # 100; support := inject_Z 1 |};
      {| class := "food"; precision := 50 # 100; recall := 50 # 100;
         f1_score := 50 # 100; support := inject_Z 0 |} ].

End Demo.

(** ** Predicates of the statements *)

(** The stages of a run: the calls that load, split, train, evaluate and
    save.  Printing is no stage. *)
Inductive stage :=
| Load (database table : string)
| Split
| Train
| EvaluatePredict
| EvaluateReport
| SaveModel (path : string)
| SaveReport (database table : string).

Definition stage_of {F W} (e : event F W) : option stage :=
  match e with
  | Print _ => None
  | ReadSqlTable database table => Some (Load database table)
  | TrainTestSplit _ => Some Split
  | Fit => Some Train
  | Predict => Some EvaluatePredict
  | ClassificationReport => Some EvaluateReport
  | PickleDump path _ => Some (SaveModel path)
  | ToSql database table _ => Some (SaveReport database table)
  end.

Definition stages {F W} (l : list (event F W)) : list stage := omap stage_of l.

(** The stages of a complete run, in order. *)
Definition full_run (database_filepath model_filepath : string) : list stage :=
  [ Load database_filepath "Categorized_Messages"; Split; Train;
    EvaluatePredict; EvaluateReport; EvaluateReport;
    SaveModel model_filepath;
    SaveReport "data/DisasterResponse.db" "df_report" ].

(** A computation goes through the stages [full] in order: whatever it
    does, the stages it reached are a prefix of [full], and all of [full]
    when it returns. *)
Definition goes_through {F W A} (m : M F W A) (full : list stage) : Prop :=
  ∀ fs, stages (log (m fs)) `prefix_of` full ∧
        ∀ a, value (m fs) = Return a → stages (log (m fs)) = full.

(** The character [c] does not occur in [s]. *)
Definition free_of (c : ascii) (s : string) : Prop := c ∉ chars s.

(** A non-empty text without a space or a line feed: what stays one field
    on one line. *)
Definition plain (s : string) : Prop :=
  s ≠ EmptyString ∧ free_of " " s ∧ free_of LF s.

(** The outcome of running [m] on the files [fs] satisfies [Q]. *)
Definition wp {F W A} (m : M F W A) (fs : gmap string (file F W))
    (Q : result A → gmap string (file F W) → list (event F W) → Prop) : Prop :=
  Q (value (m fs)) (disk (m fs)) (log (m fs)).

(** The model [fit] leaves behind: the given one with its two attributes
    set. *)
Definition fitted {W} (model : GridSearchCV W) (best : step) (w : W)
    (best_params : params) : GridSearchCV W :=
  {| estimator := estimator model; param_grid := param_grid model;
     scoring := scoring model; n_jobs := n_jobs model; cv := cv model;
     refit := refit model; verbose := verbose model;
     best_estimator_ := Some (best, w);
     best_params_ := Some best_params |}.

(** The pipeline of [build_model] with the given cap on the vocabulary. *)
Definition pipeline_with_max_features {F W} (L : Libraries F W)
    (cap : option Z) : step :=
  Pipeline [
    ("text_pipeline", Pipeline [
       ("vect", Vect {| tokenizer := tokenize (nltk_word_tokenize L)
                                       (nltk_stop_words L) (nltk_lemmatize L);
                        ngram_range := (1%nat, 2%nat);
                        max_df := 1 # 2;
                        max_features := cap |});
       ("tfidf", TfidfTransformer)]);
    ("multi_clf", Clf (MultiOutputClassifier (OneVsRestClassifier LinearSVC)))].

(** The numbers the library prints in a report are numerals that [float]
    reads back. *)
Definition numeric_scores {F W} (L : Libraries F W) (Y_true : DataFrame F)
    (Y_pred : list (list Z)) : Prop :=
  ∀ line, ∃ p r f,
    report_scores L Y_true Y_pred line = (p, r, f) ∧
    Forall (λ s, plain s ∧ is_Some (float_of_string L s)) [p; r; f].

(** [float] reads a printed count as that count, [of_nat] being the float
    of a natural number. *)
Definition reads_counts {F W} (L : Libraries F W) (of_nat : nat → F) : Prop :=
  ∀ n, float_of_string L (Decimal.str_nat n) = Some (of_nat n).

(** The tables of the database at a path: none when there is no database. *)
Definition tables_at {F W} (fs : gmap string (file F W)) (database : string)
  : gmap string (DataFrame F) :=
  match fs !! database with
  | Some (Sqlite tables) => tables
  | _ => ∅
  end.

(** The computation [m] leaves the files as it finds them. *)
Definition keeps_files {F W A} (m : M F W A) : Prop :=
  ∀ fs, disk (m fs) = fs.

(* ================================================================== *)
(** * Proofs *)

(** ** Characters and strings *)

Ltac each_char c := destruct c as [[] [] [] [] [] [] [] []].

Lemma alnum_lower_char c : alnum (lower_char c) = alnum c.
Proof. each_char c; reflexivity. Qed.

Lemma lower_char_lower_alnum c : alnum c = true → lower_alnum (lower_char c) = true.
Proof. each_char c; vm_compute; congruence. Qed.

Lemma chars_String c s : chars (String c s) = c :: chars s.
Proof. reflexivity. Qed.

Lemma chars_map_chars f s : chars (map_chars f s) = map f (chars s).
Proof.
  induction s as [|c s IH]; [done|].
  change (f c :: chars (map_chars f s) = f c :: map f (chars s)). by rewrite IH.
Qed.

Lemma map_chars_compose f g s :
  map_chars g (map_chars f s) = map_chars (λ c, g (f c)) s.
Proof. induction s as [|c s IH]; [done|]. cbn. by rewrite IH. Qed.

Lemma map_chars_ext f g s :
  (∀ c, f c = g c) → map_chars f s = map_chars g s.
Proof. intros E. induction s as [|c s IH]; [done|]. cbn. by rewrite E, IH. Qed.

(** Case folding and stripping fuse into one pass over the characters. *)
Lemma normalize_pointwise text :
  normalize text =
  map_chars (λ c, if alnum c then lower_char c else " "%char) text.
Proof.
  unfold normalize, re_sub_non_alnum, lower. rewrite map_chars_compose.
  apply map_chars_ext. intros c. by rewrite alnum_lower_char.
Qed.

Lemma normalize_normal text : normal_text (normalize text).
Proof.
  unfold normal_text. rewrite normalize_pointwise, chars_map_chars.
  apply Forall_forall. intros c [d [-> _]]%list_elem_of_fmap.
  destruct (alnum d) eqn:E; [left; by apply lower_char_lower_alnum | by right].
Qed.

(** ** Fields of [split] *)

Lemma split_not_nil sep s : split sep s ≠ [].
Proof.
  destruct s as [|c s]; [done|]. cbn.
  destruct (decide (c = sep)); [done|]. by destruct (split sep s).
Qed.

Lemma split_fields_chars sep s :
  Forall (λ f, Forall (λ c, c ∈ chars s ∧ c ≠ sep) (chars f)) (split sep s).
Proof.
  induction s as [|c s IH]; cbn [split].
  - repeat constructor.
  - assert (Hmono : ∀ f, Forall (λ d, d ∈ chars s ∧ d ≠ sep) (chars f) →
                         Forall (λ d, d ∈ chars (String c s) ∧ d ≠ sep) (chars f)).
    { intros f Hf. eapply Forall_impl; [exact Hf|]. intros d [? ?]. split; [|done].
      rewrite chars_String. by apply list_elem_of_further. }
    assert (Hhere : c ∈ chars (String c s)).
    { rewrite chars_String. apply list_elem_of_here. }
    destruct (decide (c = sep)) as [->|Hne].
    + constructor; [constructor|]. eapply Forall_impl; [exact IH|]. apply Hmono.
    + destruct (split sep s) as [|w ws].
      * repeat constructor; done.
      * inversion IH as [|? ? Hw Hws]; subst. constructor.
        -- rewrite (chars_String c w). constructor; [done | by apply Hmono].
        -- eapply Forall_impl; [exact Hws|]. apply Hmono.
Qed.

Lemma filter_none_truthy l : Forall (λ w, w ≠ EmptyString) (filter_none l).
Proof.
  apply Forall_forall. intros w Hw. apply list_elem_of_In in Hw.
  apply filter_In in Hw as [_ Hw]. by destruct w.
Qed.

Lemma filter_none_incl l w : w ∈ filter_none l → w ∈ l.
Proof.
  rewrite !list_elem_of_In. unfold filter_none. rewrite filter_In. tauto.
Qed.

(** ** The steps of [tokenize] *)

Lemma drop_stop_words_clear stop_words words :
  Forall (λ w, w ∉ stop_words) (drop_stop_words stop_words words).
Proof.
  apply Forall_forall. intros w Hw. apply list_elem_of_In in Hw.
  apply filter_In in Hw as [_ Hw]. unfold contains in Hw.
  apply negb_true_iff, bool_decide_eq_false in Hw. exact Hw.
Qed.

Lemma drop_stop_words_sublist stop_words words :
  drop_stop_words stop_words words `sublist_of` words.
Proof.
  unfold drop_stop_words. induction words as [|w ws IH]; cbn; [constructor|].
  destruct (negb _); by constructor.
Qed.

Lemma drop_stop_words_keeps stop_words words w :
  w ∈ words → w ∉ stop_words → w ∈ drop_stop_words stop_words words.
Proof.
  intros Hin Hns. apply list_elem_of_In, filter_In. split.
  - by apply list_elem_of_In.
  - unfold contains. apply negb_true_iff, bool_decide_eq_false. exact Hns.
Qed.

Lemma tokenize_unfold word_tokenize stop_words lemmatize text :
  tokenize word_tokenize stop_words lemmatize text =
  map (λ w, lemmatize (lemmatize w NOUN) VERB)
      (drop_stop_words stop_words (word_tokenize (normalize text))).
Proof. unfold tokenize. cbn zeta. by rewrite map_map. Qed.

Lemma words_of_normal_text_clean word_tokenize t :
  cuts_words word_tokenize → normal_text t →
  Forall clean_token (word_tokenize t).
Proof.
  intros Hcut Hn. eapply Forall_impl; [exact (Hcut t Hn)|].
  intros tok [Hne Hcs]. split; [done|].
  eapply Forall_impl; [exact Hcs|]. intros c [Hin Hsp].
  unfold normal_text in Hn. rewrite Forall_forall in Hn.
  destruct (Hn c Hin); [done | contradiction].
Qed.

Lemma tokenize_clean word_tokenize stop_words lemmatize text :
  cuts_words word_tokenize → keeps_clean lemmatize →
  Forall clean_token (tokenize word_tokenize stop_words lemmatize text).
Proof.
  intros Hcut Hlem. rewrite tokenize_unfold. apply Forall_fmap.
  pose proof (words_of_normal_text_clean word_tokenize _ Hcut
                (normalize_normal text)) as Hw.
  rewrite Forall_forall in Hw. apply Forall_forall. intros w Hin.
  do 2 apply Hlem. apply Hw.
  eapply elem_of_sublist; [exact Hin | apply drop_stop_words_sublist].
Qed.

(** ** The NLTK model meets what the proofs ask *)

Lemma split_contraction_pieces w :
  w ≠ EmptyString →
  Forall (λ p, p ≠ EmptyString ∧ Forall (λ c, c ∈ chars w) (chars p))
         (Nltk.split_contraction w).
Proof.
  intros Hne. unfold Nltk.split_contraction.
  repeat case_decide; subst;
    repeat (constructor; try done);
    try (apply Forall_forall; by auto);
    vm_compute; set_solver.
Qed.

Lemma Nltk_cuts_words : cuts_words Nltk.word_tokenize.
Proof.
  intros t _. unfold Nltk.word_tokenize. apply Forall_forall.
  intros tok [w [Hw Htok]]%list_elem_of_In%in_flat_map.
  apply list_elem_of_In in Hw, Htok.
  pose proof (filter_none_truthy (split " " t)) as Hne.
  rewrite Forall_forall in Hne. specialize (Hne w Hw).
  apply filter_none_incl in Hw.
  pose proof (split_fields_chars " " t) as Hf.
  rewrite Forall_forall in Hf. specialize (Hf w Hw).
  pose proof (split_contraction_pieces w Hne) as Hp.
  rewrite Forall_forall in Hp. destruct (Hp tok Htok) as [Hn Hc].
  split; [done|]. rewrite Forall_forall in Hf, Hc |- *. auto.
Qed.

Lemma Nltk_keeps_clean : keeps_clean Nltk.lemmatize.
Proof.
  intros w [|] Hw; cbn; case_decide; try done;
    (split; [done | vm_compute; repeat constructor]).
Qed.




(** ** [classification_report_df] *)

Lemma slice_2_6 {A} (l : list A) :
  slice l 2 (-6) = take (length l - 8)%nat (drop 2%nat l).
Proof.
  unfold slice, slice_bound.
  change (2 <? 0) with false. change (-6 <? 0) with true. cbn match.
  set (n := Z.of_nat (length l)).
  destruct (decide (8 ≤ length l)%nat) as [Hge|Hlt].
  - replace (Z.to_nat (Z.max (-6 + n) 0 - Z.min 2 n)) with (length l - 8)%nat by lia.
    by replace (Z.to_nat (Z.min 2 n)) with 2%nat by lia.
  - replace (length l - 8)%nat with 0%nat by lia. rewrite take_0.
    destruct (decide (length l ≤ 2)%nat) as [Hle|Hgt].
    + rewrite drop_ge by lia. by rewrite take_nil.
    + replace (Z.to_nat (Z.max (-6 + n) 0 - Z.min 2 n)) with 0%nat by lia.
      by rewrite take_0.
Qed.

Lemma parsed_lines_lookup report i :
  parsed_lines report !! i =
  if decide (i + 8 < length (split LF report))%nat
  then split LF report !! (i + 2)%nat else None.
Proof.
  unfold parsed_lines. set (lines := split LF report).
  case_decide as Hi.
  - rewrite lookup_take_lt by lia. rewrite lookup_drop. f_equal. lia.
  - apply lookup_ge_None. rewrite length_take, length_drop. lia.
Qed.

Section ReportFacts.

Context {F : Type} (float : string → option F).

Lemma report_row_of_line_gives line row :
  report_row_of_line float line = Return row ↔
  line_gives float space_fields line row.
Proof.
  unfold report_row_of_line, line_gives, space_fields, py_float.
  destruct (filter_none (split " " line))
    as [|c [|p [|r [|f [|s rest]]]]] eqn:E; cbn.
  1-5: split; [try discriminate;
               repeat (match goal with
                       | |- context [float ?x] => destruct (float x)
                       end; cbn; try discriminate)
              | intros (? & ? & ? & ? & ? & ? & _); discriminate].
  split.
  - destruct (float p) as [xp|] eqn:Ep; cbn; [|discriminate].
    destruct (float r) as [xr|] eqn:Er; cbn; [|discriminate].
    destruct (float f) as [xf|] eqn:Ef; cbn; [|discriminate].
    destruct (float s) as [xs|] eqn:Es; cbn; [|discriminate].
    intros [= <-]. by exists p, r, f, s, rest.
  - intros (p' & r' & f' & s' & rest' & [= Hc -> -> -> -> ->] & Hp & Hr & Hf & Hs).
    rewrite Hp, Hr, Hf, Hs. cbn. destruct row; cbn in *. by subst.
Qed.

Lemma report_row_of_line_raises line :
  ¬ well_formed_line float space_fields line →
  ∃ e, report_row_of_line float line = Raise e.
Proof.
  intros Hnw. destruct (report_row_of_line float line) as [e|row] eqn:E.
  - by exists e.
  - destruct Hnw. exists row. by apply report_row_of_line_gives.
Qed.

Lemma report_rows_returns lines acc data :
  report_rows float lines acc = Return data ↔
  ∃ new, data = acc ++ new ∧
         Forall2 (line_gives float space_fields) lines new.
Proof.
  revert acc. induction lines as [|line lines IH]; intros acc; cbn.
  - split.
    + intros [= <-]. exists []. by rewrite app_nil_r.
    + intros (new & -> & Hnew). apply Forall2_nil_inv_l in Hnew as ->.
      by rewrite app_nil_r.
  - destruct (report_row_of_line float line) as [e|row] eqn:E; cbn.
    + split; [discriminate|]. intros (new & _ & Hnew).
      apply Forall2_cons_inv_l in Hnew as (row & new' & Hrow & _ & _).
      apply report_row_of_line_gives in Hrow. congruence.
    + rewrite IH. split.
      * intros (new & -> & Hnew). exists (row :: new). split.
        -- by rewrite <- app_assoc.
        -- constructor; [by apply report_row_of_line_gives | done].
      * intros (new & -> & Hnew).
        apply Forall2_cons_inv_l in Hnew as (row' & new' & Hrow & Hnew' & ->).
        apply report_row_of_line_gives in Hrow.
        assert (row' = row) as -> by congruence.
        exists new'. split; [by rewrite <- app_assoc | done].
Qed.

Lemma report_rows_raises lines acc :
  ¬ Forall (well_formed_line float space_fields) lines →
  ∃ e, report_rows float lines acc = Raise e.
Proof.
  intros Hnw. destruct (report_rows float lines acc) as [e|data] eqn:E.
  - by exists e.
  - destruct Hnw. apply report_rows_returns in E as (new & _ & Hnew).
    clear -Hnew. induction Hnew; constructor; [by eexists | done].
Qed.

Lemma classification_report_df_returns report df :
  classification_report_df float report = Return df ↔
  ∃ report_data,
    df = DataFrame_from_dict report_data ∧
    Forall2 (line_gives float space_fields) (parsed_lines report) report_data.
Proof.
  unfold classification_report_df. cbn zeta. rewrite slice_2_6.
  fold (parsed_lines report).
  destruct (report_rows float (parsed_lines report) []) as [e|data] eqn:E; cbn.
  - split; [discriminate|]. intros (report_data & _ & Hd).
    assert (report_rows float (parsed_lines report) [] = Return report_data)
      by (apply report_rows_returns; by exists report_data).
    congruence.
  - apply report_rows_returns in E as (new & -> & Hnew). cbn. split.
    + intros [= <-]. by exists new.
    + intros (report_data & -> & Hd). f_equal. f_equal.
      clear -Hnew Hd. revert report_data Hd.
      induction Hnew as [|line row lines new Hrow _ IH]; intros rd Hd.
      * by apply Forall2_nil_inv_l in Hd as ->.
      * apply Forall2_cons_inv_l in Hd as (row' & rd' & Hrow' & Hd' & ->).
        f_equal; [|by apply IH].
        apply report_row_of_line_gives in Hrow, Hrow'. congruence.
Qed.

Lemma well_formed_lines_rows lines :
  Forall (well_formed_line float space_fields) lines →
  ∃ report_data, Forall2 (line_gives float space_fields) lines report_data.
Proof.
  induction 1 as [|line lines [row Hrow] _ [rd IH]].
  - by exists [].
  - exists (row :: rd). by constructor.
Qed.

End ReportFacts.

(** C7 (amended).  For every report string, [classification_report_df] reads
    exactly the lines from index 2 up to but excluding the sixth-from-last
    line.  It returns a frame exactly when each of these lines gives a row:
    the frame then has one row per line read, with the columns class,
    precision, recall, f1_score and support taken from the first five
    non-empty fields that the space character separates on that line (a tab
    or another whitespace character does not separate fields).  It does
    return when every line read has five such fields, the second to the
    fifth numeric. *)
Theorem classification_report_df_rows {F} (float : string → option F) report :
  (∀ i, parsed_lines report !! i =
        if decide (i + 8 < length (split LF report))%nat
        then split LF report !! (i + 2)%nat else None)
  ∧ (∀ df, classification_report_df float report = Return df ↔
       ∃ report_data,
         df = DataFrame_from_dict report_data ∧
         Forall2 (line_gives float space_fields) (parsed_lines report) report_data)
  ∧ (Forall (well_formed_line float space_fields) (parsed_lines report) →
     ∃ report_data,
       classification_report_df float report
         = Return (DataFrame_from_dict report_data) ∧
       length report_data = length (parsed_lines report)).
Proof.
  split; [apply parsed_lines_lookup|].
  split; [apply classification_report_df_returns|].
  intros Hwf. destruct (well_formed_lines_rows float _ Hwf) as [rd Hrd].
  exists rd. split.
  - apply classification_report_df_returns. by exists rd.
  - symmetry. by eapply Forall2_length.
Qed.

Lemma classification_report_df_rows_witness :
  let report :=
    join (String LF "")
      ["       precision recall f1-score support"; "";
       "water 0.50 1.00 0.67 2"; " food 1.00 0.50 0.67 4";
       ""; "micro"; "macro"; "weighted"; "samples"; ""] in
  Forall (well_formed_line Decimal.float space_fields) (parsed_lines report)
  ∧ ∃ report_data,
      classification_report_df Decimal.float report
        = Return (DataFrame_from_dict report_data) ∧
      length report_data = length (parsed_lines report).
Proof.
  intros report.
  assert (Hwf : Forall (well_formed_line Decimal.float space_fields)
                  (parsed_lines report)).
  { repeat constructor.
    - exists {| class := "water"; precision := 50 # 100; recall := 100 # 100;
                f1_score := 67 # 100; support := inject_Z 2 |}.
      by exists "0.50", "1.00", "0.67", "2", [].
    - exists {| class := "food"; precision := 100 # 100; recall := 50 # 100;
                f1_score := 67 # 100; support := inject_Z 4 |}.
      by exists "1.00", "0.50", "0.67", "4", []. }
  split; [exact Hwf|].
  exact (proj2 (proj2 (classification_report_df_rows Decimal.float report)) Hwf).
Defined.

(** C7, as stated, fails on a line with a tab: the code keeps the tab inside
    the first field, where whitespace-separated fields would end at it. *)
Lemma tab_stays_inside_a_field :
  let line := "x" +:+ String TAB "y 1 2 3 4" in
  let report := join (String LF "") ["h"; ""; line; ""; ""; ""; ""; ""; ""] in
  ∃ row,
    classification_report_df Decimal.float report
      = Return (DataFrame_from_dict [row])
    ∧ parsed_lines report = [line]
    ∧ class row = "x" +:+ String TAB "y"
    ∧ spec_whitespace_fields line = ["x"; "y"; "1"; "2"; "3"; "4"]
    ∧ ¬ line_gives Decimal.float spec_whitespace_fields line row.
Proof.
  intros line report.
  exists {| class := "x" +:+ String TAB "y"; precision := inject_Z 1;
            recall := inject_Z 2; f1_score := inject_Z 3;
            support := inject_Z 4 |}.
  split; [vm_compute; reflexivity|].
  split; [vm_compute; reflexivity|].
  split; [reflexivity|].
  split; [vm_compute; reflexivity|].
  intros (p & r & f & s & rest & Hfields & _). vm_compute in Hfields.
  discriminate.
Qed.




(** ** Cutting and joining strings *)

Lemma chars_app a b : chars (a +:+ b) = chars a ++ chars b.
Proof.
  induction a as [|c a IH]; [done|].
  change (c :: chars (a +:+ b) = c :: chars a ++ chars b). by rewrite IH.
Qed.

Lemma free_of_app c a b : free_of c (a +:+ b) ↔ free_of c a ∧ free_of c b.
Proof. unfold free_of. rewrite chars_app, not_elem_of_app. tauto. Qed.

Lemma free_of_String c d s : free_of c (String d s) ↔ c ≠ d ∧ free_of c s.
Proof. unfold free_of. rewrite chars_String, not_elem_of_cons. tauto. Qed.

Lemma free_of_empty c : free_of c EmptyString.
Proof. unfold free_of. cbn. apply not_elem_of_nil. Qed.

Lemma split_free sep s : free_of sep s → split sep s = [s].
Proof.
  induction s as [|c s IH]; [done|].
  intros [Hc Hs]%free_of_String. cbn.
  destruct (decide (c = sep)); [congruence|]. by rewrite IH.
Qed.

Lemma split_app_sep sep a b :
  split sep (a +:+ String sep b) = split sep a ++ split sep b.
Proof.
  induction a as [|c a IH].
  - change (split sep (String sep b) = EmptyString :: split sep b).
    cbn [split]. by rewrite decide_True.
  - change (String c a +:+ String sep b) with (String c (a +:+ String sep b)).
    cbn [split]. rewrite IH. destruct (decide (c = sep)); [done|].
    pose proof (split_not_nil sep a). by destruct (split sep a).
Qed.

Lemma split_join sep ls :
  ls ≠ [] → Forall (free_of sep) ls →
  split sep (join (String sep EmptyString) ls) = ls.
Proof.
  intros Hne Hfree. induction Hfree as [|w ws Hw Hws IH]; [done|].
  destruct ws as [|w' ws]; [by apply split_free|].
  change (split sep (w +:+ String sep (join (String sep EmptyString) (w' :: ws)))
          = w :: w' :: ws).
  rewrite split_app_sep, IH by done. by rewrite split_free.
Qed.

Lemma space_fields_app a b :
  space_fields (a +:+ String " " b) = space_fields a ++ space_fields b.
Proof.
  unfold space_fields, filter_none. rewrite split_app_sep.
  apply List.filter_app.
Qed.

Lemma space_fields_lead b : space_fields (String " " b) = space_fields b.
Proof. apply (space_fields_app EmptyString b). Qed.

Lemma space_fields_spaces n s :
  space_fields (Sklearn.spaces n +:+ s) = space_fields s.
Proof.
  induction n as [|n IH]; [done|].
  change (Sklearn.spaces (S n) +:+ s) with (String " " (Sklearn.spaces n +:+ s)).
  by rewrite space_fields_lead.
Qed.

Lemma space_fields_one s :
  s ≠ EmptyString → free_of " " s → space_fields s = [s].
Proof.
  intros Hne Hfree. unfold space_fields. rewrite split_free by done.
  by destruct s.
Qed.

Lemma space_fields_rjust w s :
  s ≠ EmptyString → free_of " " s → space_fields (Sklearn.rjust w s) = [s].
Proof.
  intros. unfold Sklearn.rjust. rewrite space_fields_spaces.
  by apply space_fields_one.
Qed.

Lemma space_fields_rjust_app w s rest :
  s ≠ EmptyString → free_of " " s →
  space_fields (Sklearn.rjust w s +:+ String " " rest) = s :: space_fields rest.
Proof. intros. by rewrite space_fields_app, space_fields_rjust. Qed.

Ltac lead_spaces :=
  repeat match goal with
         | |- context [String " " EmptyString +:+ ?x] =>
             change (String " " EmptyString +:+ x) with (String " " x)
         end.

Lemma space_fields_row_fmt w h p r f s :
  Forall (λ x, x ≠ EmptyString ∧ free_of " " x) [h; p; r; f; s] →
  space_fields (Sklearn.row_fmt w h p r f s) = [h; p; r; f; s].
Proof.
  rewrite !Forall_cons. intros ([? ?] & [? ?] & [? ?] & [? ?] & [? ?] & _).
  unfold Sklearn.row_fmt. lead_spaces.
  rewrite space_fields_rjust_app, space_fields_lead by done.
  rewrite !space_fields_rjust_app by done.
  by rewrite space_fields_rjust.
Qed.

Lemma free_of_spaces c n : c ≠ " "%char → free_of c (Sklearn.spaces n).
Proof.
  intros Hc. induction n as [|n IH]; [apply free_of_empty|].
  cbn. by apply free_of_String.
Qed.

Lemma free_of_rjust c w s :
  c ≠ " "%char → free_of c s → free_of c (Sklearn.rjust w s).
Proof.
  intros. unfold Sklearn.rjust. apply free_of_app. split; [|done].
  by apply free_of_spaces.
Qed.

Lemma LF_free_row_fmt w h p r f s :
  Forall (free_of LF) [h; p; r; f; s] →
  free_of LF (Sklearn.row_fmt w h p r f s).
Proof.
  rewrite !Forall_cons. intros (? & ? & ? & ? & ? & _).
  assert (LF ≠ " "%char) by done.
  unfold Sklearn.row_fmt. lead_spaces.
  repeat first [ done
               | by apply free_of_rjust
               | apply free_of_app; split
               | apply free_of_String; split ].
Qed.

(** ** Decimal numerals *)

Lemma to_uint_not_Nil n : Nat.to_uint n ≠ Decimal.Nil.
Proof.
  rewrite <- (DecimalNat.Unsigned.of_to n) at 1.
  rewrite DecimalNat.Unsigned.to_of. unfold Decimal.unorm.
  by destruct (Decimal.nzhead (Nat.to_uint n)).
Qed.

Lemma string_of_uint_digits d :
  Forall (λ c, is_digit c = true) (chars (DecimalString.NilEmpty.string_of_uint d)).
Proof. induction d; cbn; constructor; done. Qed.

Lemma str_nat_not_empty n : Decimal.str_nat n ≠ EmptyString.
Proof.
  unfold Decimal.str_nat. pose proof (to_uint_not_Nil n).
  by destruct (Nat.to_uint n).
Qed.

Lemma str_nat_free c n : is_digit c = false → free_of c (Decimal.str_nat n).
Proof.
  intros Hc Hin. pose proof (string_of_uint_digits (Nat.to_uint n)) as Hd.
  rewrite Forall_forall in Hd. specialize (Hd c Hin). congruence.
Qed.

Lemma str_nat_plain n : plain (Decimal.str_nat n).
Proof.
  split; [apply str_nat_not_empty|]. split; by apply str_nat_free.
Qed.

Lemma digits_value_str_nat n : Decimal.digits_value (Decimal.str_nat n) = Some n.
Proof.
  unfold Decimal.digits_value. pose proof (str_nat_not_empty n) as Hne.
  destruct (Decimal.str_nat n) eqn:E; [done|]. cbn [truthy]. rewrite <- E.
  unfold Decimal.str_nat. rewrite DecimalString.NilEmpty.usu. cbn.
  by rewrite DecimalNat.Unsigned.of_to.
Qed.

(** The decimal reader reads back what [str] prints. *)
Lemma Decimal_float_str_nat n :
  Decimal.float (Decimal.str_nat n) = Some (inject_Z (Z.of_nat n)).
Proof.
  unfold Decimal.float. rewrite split_free by (by apply str_nat_free).
  by rewrite digits_value_str_nat.
Qed.


(** ** Runs of the script and their stages *)

Section Runs.

Context {F W : Type} (L : Libraries F W).

Lemma goes_through_ret {A} (a : A) : goes_through (mret a : M F W A) [].
Proof. intros fs. split; [apply prefix_nil | done]. Qed.

Lemma goes_through_raise {A} e l : goes_through (raise e : M F W A) l.
Proof. intros fs. split; [apply prefix_nil | done]. Qed.

Lemma goes_through_lift {A} (r : result A) : goes_through (lift r : M F W A) [].
Proof. intros fs. split; [apply prefix_nil | done]. Qed.

Lemma goes_through_print s : goes_through (print s : M F W unit) [].
Proof. intros fs. split; [apply prefix_nil | done]. Qed.

Lemma goes_through_emit (e : event F W) st :
  stage_of e = Some st → goes_through (emit e) [st].
Proof. intros He fs. cbn. rewrite He. done. Qed.

Lemma goes_through_io {A} (e : event F W) act st :
  stage_of e = Some st → goes_through (io L e act : M F W A) [st].
Proof.
  intros He fs. unfold io. destruct (io_fault L e fs); cbn; rewrite He; done.
Qed.

Lemma goes_through_bind {A B} (m : M F W A) (k : A → M F W B) l1 l2 :
  goes_through m l1 → (∀ a, goes_through (k a) l2) →
  goes_through (m ≫= k) (l1 ++ l2).
Proof.
  intros Hm Hk fs. destruct (Hm fs) as [Hpre Hfull].
  unfold mbind, M_bind. cbn zeta.
  destruct (value (m fs)) as [e|a] eqn:Ev; cbn.
  - split; [by apply prefix_app_r | done].
  - destruct (Hk a (disk (m fs))) as [Hpre' Hfull'].
    unfold stages in *. rewrite omap_app, (Hfull a eq_refl). split.
    + by apply prefix_app.
    + intros b Hb. by rewrite (Hfull' b Hb).
Qed.

Lemma bind_run {A B} (m : M F W A) (k : A → M F W B) fs :
  (m ≫= k) fs =
  match value (m fs) with
  | Raise e => {| value := Raise e; disk := disk (m fs); log := log (m fs) |}
  | Return a =>
      {| value := value (k a (disk (m fs))); disk := disk (k a (disk (m fs)));
         log := log (m fs) ++ log (k a (disk (m fs))) |}
  end.
Proof. reflexivity. Qed.

Lemma wp_bind {A B} (m : M F W A) (k : A → M F W B) fs Q :
  wp m fs (λ r fs' l,
    match r with
    | Raise e => Q (Raise e) fs' l
    | Return a => wp (k a) fs' (λ r' fs'' l', Q r' fs'' (l ++ l'))
    end) →
  wp (m ≫= k) fs Q.
Proof. unfold wp. rewrite bind_run. by destruct (value (m fs)). Qed.

Lemma log_stage_in {A} (m : M F W A) l fs e st :
  goes_through m l → e ∈ log (m fs) → stage_of e = Some st → st ∈ l.
Proof.
  intros Hm He Hst. destruct (Hm fs) as [[l' ->] _].
  apply elem_of_app. left. unfold stages. apply list_elem_of_omap. eauto.
Qed.

Lemma no_sql_in {A} (m : M F W A) l fs :
  goes_through m l → (∀ d t, SaveReport d t ∉ l) →
  ∀ d t df, ToSql d t df ∉ log (m fs).
Proof. intros Hm Hl d t df Hin. apply (Hl d t). by eapply log_stage_in. Qed.

Lemma goes_through_eq {A} (m : M F W A) l l' :
  goes_through m l → l = l' → goes_through m l'.
Proof. by intros ? <-. Qed.

Ltac stages_step :=
  first [ apply goes_through_ret
        | apply goes_through_raise
        | apply goes_through_lift
        | apply goes_through_print
        | eapply goes_through_io; reflexivity
        | eapply goes_through_emit; reflexivity
        | eapply goes_through_bind; [|intros] ].

Lemma load_data_stages database :
  goes_through (load_data L database) [Load database "Categorized_Messages"].
Proof.
  unfold load_data, read_sql_table.
  eapply goes_through_eq; [repeat stages_step | reflexivity].
Qed.

Lemma train_test_split_stages X Y :
  goes_through (train_test_split L X Y) [Split].
Proof.
  unfold train_test_split.
  eapply goes_through_eq;
    [repeat first [stages_step
                  | match goal with a : (_ * _)%type |- _ => destruct a end]
    | reflexivity].
Qed.

Lemma fit_stages model X Y : goes_through (fit L model X Y) [Train].
Proof.
  unfold fit.
  eapply goes_through_eq;
    [repeat first [stages_step
                  | match goal with a : (_ * _)%type |- _ => destruct a end]
    | reflexivity].
Qed.

Lemma model_predict_stages model X :
  goes_through (model_predict L model X) [EvaluatePredict].
Proof.
  unfold model_predict. destruct (best_estimator_ model) as [[est w]|].
  - eapply goes_through_eq; [repeat stages_step | reflexivity].
  - apply goes_through_raise.
Qed.

Lemma classification_report_stages Y_true Y_pred names :
  goes_through (classification_report L Y_true Y_pred names) [EvaluateReport].
Proof.
  unfold classification_report.
  eapply goes_through_eq; [repeat stages_step | reflexivity].
Qed.

Lemma evaluate_model_stages model X_test Y_test names :
  goes_through (evaluate_model L model X_test Y_test names)
    [EvaluatePredict; EvaluateReport; EvaluateReport].
Proof.
  unfold evaluate_model.
  eapply (goes_through_bind _ _ [_] [_; _]); [apply model_predict_stages|].
  intros Y_pred.
  eapply (goes_through_bind _ _ [_] [_]); [apply classification_report_stages|].
  intros shown.
  eapply (goes_through_bind _ _ [] [_]); [apply goes_through_print|].
  intros _.
  eapply (goes_through_bind _ _ [_] []); [apply classification_report_stages|].
  intros report.
  eapply (goes_through_bind _ _ [] []); [apply goes_through_lift|].
  intros df_report. destruct (best_params_ model).
  - eapply goes_through_eq; [repeat stages_step | reflexivity].
  - apply goes_through_raise.
Qed.

Lemma save_model_stages model path :
  goes_through (save_model L model path) [SaveModel path].
Proof.
  unfold save_model, pickle_dump. destruct (best_estimator_ model) as [[est w]|].
  - by eapply goes_through_io.
  - apply goes_through_raise.
Qed.

Lemma save_report_stages df_report :
  goes_through (save_report L df_report)
    [SaveReport "data/DisasterResponse.db" "df_report"].
Proof. unfold save_report, to_sql. by eapply goes_through_io. Qed.

Lemma main_stages prog database_filepath model_filepath :
  goes_through (main L [prog; database_filepath; model_filepath])
    (full_run database_filepath model_filepath).
Proof.
  unfold main, full_run.
  eapply (goes_through_bind _ _ [] _); [apply goes_through_print|]. intros _.
  eapply (goes_through_bind _ _ [_] _); [apply load_data_stages|].
  intros [[X Y] category_names].
  eapply (goes_through_bind _ _ [_] _); [apply train_test_split_stages|].
  intros [[[X_train X_test] Y_train] Y_test].
  eapply (goes_through_bind _ _ [] _); [apply goes_through_print|]. intros _.
  eapply (goes_through_bind _ _ [] _); [apply goes_through_print|]. intros _.
  eapply (goes_through_bind _ _ [_] _); [apply fit_stages|]. intros model.
  eapply (goes_through_bind _ _ [] _); [apply goes_through_print|]. intros _.
  eapply (goes_through_bind _ _ [_; _; _] _); [apply evaluate_model_stages|].
  intros df_report.
  eapply (goes_through_bind _ _ [] _); [apply goes_through_print|]. intros _.
  eapply (goes_through_bind _ _ [_] _); [apply save_model_stages|]. intros _.
  eapply (goes_through_bind _ _ [] _); [apply goes_through_print|]. intros _.
  eapply (goes_through_bind _ _ [_] []); [apply save_report_stages|]. intros _.
  apply goes_through_print.
Qed.

(** *** What the single calls do *)

Lemma fit_returns model X Y fs model' :
  value (fit L model X Y fs) = Return model' →
  ∃ i w ps est,
    grid_search L (estimator model) (Sklearn.ParameterGrid (param_grid model)) X Y
      = Return (i, w) ∧
    Sklearn.ParameterGrid (param_grid model) !! i = Some ps ∧
    Sklearn.set_params (estimator model) ps = Return est ∧
    model' = fitted model est w ps.
Proof.
  unfold fit. rewrite !bind_run. cbn [value disk log emit lift].
  destruct (grid_search L _ _ X Y) as [e|[i w]] eqn:Hs; [done|].
  rewrite !bind_run. cbn [value disk log lift]. unfold getitem.
  destruct (Sklearn.ParameterGrid (param_grid model) !! i) as [ps|] eqn:Hps;
    [|done].
  rewrite !bind_run. cbn [value disk log lift].
  destruct (Sklearn.set_params (estimator model) ps) as [e|est] eqn:Hest;
    [done|].
  cbn. intros [= <-]. by exists i, w, ps, est.
Qed.

Lemma save_model_returns model path fs :
  value (save_model L model path fs) = Return () →
  ∃ est w,
    best_estimator_ model = Some (est, w) ∧
    io_fault L (PickleDump path (ObjPipeline est w)) fs = None ∧
    disk (save_model L model path fs) = <[path := Pickle (ObjPipeline est w)]> fs ∧
    log (save_model L model path fs) = [PickleDump path (ObjPipeline est w)].
Proof.
  unfold save_model, pickle_dump, io.
  destruct (best_estimator_ model) as [[est w]|]; [|done].
  destruct (io_fault L _ fs) eqn:Hf; [done|]. intros _. by exists est, w.
Qed.

Lemma save_model_run model path fs est w :
  best_estimator_ model = Some (est, w) →
  io_fault L (PickleDump path (ObjPipeline est w)) fs = None →
  save_model L model path fs =
  {| value := Return (); disk := <[path := Pickle (ObjPipeline est w)]> fs;
     log := [PickleDump path (ObjPipeline est w)] |}.
Proof. intros Hb Hf. unfold save_model, pickle_dump, io. by rewrite Hb, Hf. Qed.

Lemma save_report_log df_report fs :
  log (save_report L df_report fs) =
  [ToSql "data/DisasterResponse.db" "df_report" df_report].
Proof. unfold save_report, to_sql, io. by destruct (io_fault L _ fs). Qed.

Lemma save_report_raises df_report fs e :
  value (save_report L df_report fs) = Raise e →
  disk (save_report L df_report fs) = fs.
Proof.
  unfold save_report, to_sql, io. destruct (io_fault L _ fs); [done|].
  cbn [value disk]. destruct (fs !! "data/DisasterResponse.db") as [[o|tables]|];
    [done| |done].
  by destruct (tables !! "df_report").
Qed.

Lemma save_report_returns df_report fs :
  value (save_report L df_report fs) = Return () ↔
  io_fault L (ToSql "data/DisasterResponse.db" "df_report" df_report) fs = None ∧
  ∀ o, fs !! "data/DisasterResponse.db" ≠ Some (Pickle o).
Proof.
  unfold save_report, to_sql, io. destruct (io_fault L _ fs).
  - split; [done | by intros [? _]].
  - cbn [value].
    destruct (fs !! "data/DisasterResponse.db") as [[o|tables]|] eqn:E.
    + split; [done|]. intros [_ H]. by destruct (H o).
    + by destruct (tables !! "df_report").
    + done.
Qed.

Lemma save_report_disk df_report fs :
  value (save_report L df_report fs) = Return () →
  disk (save_report L df_report fs) =
  <["data/DisasterResponse.db" :=
      Sqlite (<["df_report" := df_report]> (tables_at fs "data/DisasterResponse.db"))]> fs.
Proof.
  unfold save_report, to_sql, io, tables_at. destruct (io_fault L _ fs); [done|].
  cbn [value disk].
  destruct (fs !! "data/DisasterResponse.db") as [[o|tables]|] eqn:E; [done| |].
  - by destruct (tables !! "df_report").
  - intros _. cbn. by rewrite insert_empty.
Qed.

(** *** A run that gets as far as writing the report *)

Ltac no_such_stage :=
  let H := fresh in
  intros ? ? H;
  repeat (apply elem_of_cons in H as [H|H]; [discriminate H|]);
  by apply elem_of_nil in H.

Ltac not_in_log Hin :=
  repeat match type of Hin with
         | _ ∈ _ ++ _ => apply elem_of_app in Hin as [Hin|Hin]
         end;
  solve [ repeat match type of Hin with
                 | _ ∈ _ :: _ =>
                     apply elem_of_cons in Hin as [Hin|Hin]; [discriminate Hin|]
                 end;
          by apply elem_of_nil in Hin
        | match goal with Hno : _ |- _ => exact (Hno _ _ _ Hin) end ].

Ltac wp_print :=
  apply wp_bind; unfold wp at 1; cbn [value disk log print emit].

Ltac wp_call lemma :=
  apply wp_bind; unfold wp at 1;
  match goal with
  | |- match value (?m ?fs) with _ => _ end =>
      let Hv := fresh "Hv" in
      let Hin := fresh "Hin" in
      let Hno := fresh "Hno" in
      pose proof (no_sql_in m _ fs lemma ltac:(no_such_stage)) as Hno;
      destruct (value (m fs)) eqn:Hv; [intros Hin; exfalso; not_in_log Hin|]
  end.

Lemma main_reaches_report prog database_filepath model_filepath fs d t df :
  wp (main L [prog; database_filepath; model_filepath]) fs (λ r fs' l,
    ToSql d t df ∈ l →
    ∃ fs1 l1 X_train Y_train i w ps est df_report,
      grid_search L (estimator (build_model L))
        (Sklearn.ParameterGrid (param_grid (build_model L))) X_train Y_train
        = Return (i, w) ∧
      Sklearn.ParameterGrid (param_grid (build_model L)) !! i = Some ps ∧
      Sklearn.set_params (estimator (build_model L)) ps = Return est ∧
      (∀ d' t' df', ToSql d' t' df' ∉ l1) ∧
      let saved := <[model_filepath := Pickle (ObjPipeline est w)]> fs1 in
      let o := save_report L df_report saved in
      r = value o ∧ fs' = disk o ∧
      l = l1 ++ [PickleDump model_filepath (ObjPipeline est w);
                 Print "Trained model saved!"]
             ++ log o
             ++ match value o with
                | Return _ => [Print "Model performance score saved!"]
                | Raise _ => []
                end).
Proof.
  unfold main.
  wp_print.
  wp_call (load_data_stages database_filepath).
  destruct a as [[X Y] category_names].
  wp_call (train_test_split_stages X Y).
  destruct a as [[[X_train X_test] Y_train] Y_test].
  wp_print. wp_print.
  wp_call (fit_stages (build_model L) X_train Y_train).
  rename a into model.
  wp_print.
  wp_call (evaluate_model_stages model X_test Y_test category_names).
  rename a into df_report.
  wp_print.
  apply fit_returns in Hv1 as (i & w & ps & est & Hsearch & Hps & Hest & ->).
  apply wp_bind. unfold wp at 1.
  set (fs1 := disk (evaluate_model L _ X_test Y_test category_names _)).
  destruct (value (save_model L _ model_filepath fs1)) as [e|[]] eqn:Hsave.
  { intros Hin. exfalso.
    pose proof (no_sql_in _ _ fs1 (save_model_stages
                  (fitted (build_model L) est w ps) model_filepath)
                  ltac:(no_such_stage)) as Hno3.
    not_in_log Hin. }
  apply save_model_returns in Hsave as (est' & w' & [= <- <-] & _ & -> & ->).
  wp_print.
  apply wp_bind. unfold wp at 1.
  set (saved := <[model_filepath := Pickle (ObjPipeline est w)]> fs1).
  match goal with
  | |- context [?p1 ++ ?a ++ ?b ++ ?p2 ++ ?p3 ++ ?c ++ ?p4 ++ ?d ++ ?p5
                  ++ [PickleDump _ _] ++ _] =>
      pose (l1 := p1 ++ a ++ b ++ p2 ++ p3 ++ c ++ p4 ++ d ++ p5)
  end.
  assert (Hl1 : ∀ d' t' df', ToSql d' t' df' ∉ l1).
  { intros d' t' df' Hin. subst l1. not_in_log Hin. }
  destruct (value (save_report L df_report saved)) as [e|[]] eqn:Hrep.
  - intros _. exists fs1, l1, X_train, Y_train, i, w, ps, est, df_report.
    do 4 (split; [done|]). cbn zeta. fold saved. rewrite Hrep.
    do 2 (split; [done|]). subst l1. by rewrite app_nil_r, <- !app_assoc.
  - unfold wp, print, emit. cbn [value disk log]. intros _.
    exists fs1, l1, X_train, Y_train, i, w, ps, est, df_report.
    do 4 (split; [done|]). cbn zeta. fold saved. rewrite Hrep.
    do 2 (split; [done|]). subst l1. by rewrite <- !app_assoc.
Qed.

Lemma stage_in_log (l : list (event F W)) st :
  st ∈ stages l → ∃ e, e ∈ l ∧ stage_of e = Some st.
Proof. unfold stages. rewrite list_elem_of_omap. naive_solver. Qed.

Lemma report_in_log (l : list (event F W)) d t :
  SaveReport d t ∈ stages l → ∃ df, ToSql d t df ∈ l.
Proof.
  intros (e & He & Hst)%stage_in_log.
  destruct e; try discriminate. injection Hst as -> ->. by eexists.
Qed.

Lemma main_return_reaches_report prog database_filepath model_filepath fs :
  value (main L [prog; database_filepath; model_filepath] fs) = Return () →
  ∃ df, ToSql "data/DisasterResponse.db" "df_report" df
          ∈ log (main L [prog; database_filepath; model_filepath] fs).
Proof.
  intros Hret. apply report_in_log.
  destruct (main_stages prog database_filepath model_filepath fs) as [_ Hfull].
  rewrite (Hfull () Hret). unfold full_run. set_solver.
Qed.

Lemma main_usage argv fs :
  length argv ≠ 3%nat →
  main L argv fs = {| value := Return (); disk := fs; log := [Print usage] |}.
Proof. by destruct argv as [|? [|? [|? [|? ?]]]]. Qed.

End Runs.

(** ** The claims about a whole run *)



(** C4.  [save_model] on a fitted model writes the pickle of the model's
    [best_estimator_], the refitted pipeline, to the path given, and not the
    grid search object.  In a run of [main] that returns, the file at the
    model path of the command line holds the pipeline which the grid search
    found best: the pipeline of [build_model] with the best candidate of the
    grid applied. *)
Theorem save_model_writes_best_estimator {F W} (L : Libraries F W) :
  (∀ model path fs est w,
     best_estimator_ model = Some (est, w) →
     io_fault L (PickleDump path (ObjPipeline est w)) fs = None →
     save_model L model path fs =
       {| value := Return ();
          disk := <[path := Pickle (ObjPipeline est w)]> fs;
          log := [PickleDump path (ObjPipeline est w)] |}
     ∧ disk (save_model L model path fs) !! path
         = Some (Pickle (ObjPipeline est w))
     ∧ disk (save_model L model path fs) !! path
         ≠ Some (Pickle (ObjGridSearchCV model)))
  ∧ (∀ prog database_filepath model_filepath fs,
       value (main L [prog; database_filepath; model_filepath] fs) = Return () →
       ∃ X_train Y_train i w ps est,
         grid_search L (estimator (build_model L))
           (Sklearn.ParameterGrid (param_grid (build_model L))) X_train Y_train
           = Return (i, w) ∧
         Sklearn.ParameterGrid (param_grid (build_model L)) !! i = Some ps ∧
         Sklearn.set_params (estimator (build_model L)) ps = Return est ∧
         disk (main L [prog; database_filepath; model_filepath] fs)
           !! model_filepath = Some (Pickle (ObjPipeline est w))).
Proof.
  split.
  - intros model path fs est w Hbest Hfault.
    rewrite (save_model_run L model path fs est w Hbest Hfault). cbn [disk].
    rewrite lookup_insert_eq. done.
  - intros prog db mp fs Hret.
    destruct (main_return_reaches_report L prog db mp fs Hret) as [df Hin].
    destruct (main_reaches_report L prog db mp fs _ _ _ Hin)
      as (fs1 & l1 & X_train & Y_train & i & w & ps & est & df_report
          & Hsearch & Hps & Hest & _ & Hval & Hdisk & _).
    exists X_train, Y_train, i, w, ps, est. do 3 (split; [done|]).
    rewrite Hret in Hval. symmetry in Hval. rewrite Hdisk.
    rewrite (save_report_disk L _ _ Hval).
    apply save_report_returns in Hval as [_ Hnp].
    destruct (decide (mp = "data/DisasterResponse.db")) as [->|Hne].
    + exfalso. eapply Hnp. apply lookup_insert_eq.
    + rewrite lookup_insert_ne by done. apply lookup_insert_eq.
Qed.

Lemma save_model_writes_best_estimator_witness :
  value (main Demo.libs Demo.argv Demo.disk) = Return ()
  ∧ ∃ X_train Y_train i w ps est,
      grid_search Demo.libs (estimator (build_model Demo.libs))
        (Sklearn.ParameterGrid (param_grid (build_model Demo.libs)))
        X_train Y_train = Return (i, w) ∧
      Sklearn.ParameterGrid (param_grid (build_model Demo.libs)) !! i = Some ps ∧
      Sklearn.set_params (estimator (build_model Demo.libs)) ps = Return est ∧
      disk (main Demo.libs Demo.argv Demo.disk) !! "classifier.pkl"
        = Some (Pickle (ObjPipeline est w)).
Proof.
  assert (Hret : value (main Demo.libs Demo.argv Demo.disk) = Return ())
    by (vm_compute; reflexivity).
  split; [exact Hret|].
  exact (proj2 (save_model_writes_best_estimator Demo.libs) _ _ _ _ Hret).
Defined.





(** ** [build_model] *)

Lemma within_half n_docs df :
  Sklearn.within_max_df (1 # 2) n_docs df = true ↔ (2 * df ≤ n_docs)%nat.
Proof.
  unfold Sklearn.within_max_df. rewrite Qle_bool_iff. unfold Qle. cbn.
  rewrite Z.mul_1_r. lia.
Qed.

(** C5.  [build_model] returns a grid search, not yet fitted, over the
    pipeline whose vectorizer tokenizes with [tokenize], counts unigrams and
    bigrams and has the document-frequency ceiling 0.5, so that a term stays
    exactly when at most half of the documents contain it.  The grid names
    one parameter, the cap on the vocabulary, with the values [None] and
    10000: its candidates are the pipeline with no cap and the pipeline with
    the cap 10000, equal in everything else.  The search scores with
    [f1_macro] under the default cross-validation and uses one worker. *)
Theorem build_model_configuration {F W} (L : Libraries F W) :
  let model := build_model L in
  let key := "text_pipeline__vect__max_features" in
  estimator model = pipeline_with_max_features L None
  ∧ (∃ v, estimator model =
            Pipeline [
              ("text_pipeline", Pipeline [("vect", Vect v);
                                          ("tfidf", TfidfTransformer)]);
              ("multi_clf", Clf (MultiOutputClassifier
                                   (OneVsRestClassifier LinearSVC)))]
          ∧ tokenizer v = tokenize (nltk_word_tokenize L) (nltk_stop_words L)
                            (nltk_lemmatize L)
          ∧ ngram_range v = (1%nat, 2%nat)
          ∧ max_df v = 1 # 2
          ∧ max_features v = None
          ∧ ∀ n_docs df,
              Sklearn.within_max_df (max_df v) n_docs df = true
              ↔ (2 * df ≤ n_docs)%nat)
  ∧ param_grid model = [(key, [PNone; PInt 10000])]
  ∧ Sklearn.ParameterGrid (param_grid model)
    = [[(key, PNone)]; [(key, PInt 10000)]]
  ∧ Sklearn.set_params (estimator model) [(key, PNone)]
    = Return (pipeline_with_max_features L None)
  ∧ Sklearn.set_params (estimator model) [(key, PInt 10000)]
    = Return (pipeline_with_max_features L (Some 10000))
  ∧ scoring model = "f1_macro"
  ∧ cv model = None
  ∧ n_jobs model = Some 1
  ∧ best_estimator_ model = None.
Proof.
  intros model key. split; [reflexivity|]. split.
  - eexists. split; [reflexivity|]. cbn. repeat split; try reflexivity;
      apply within_half.
  - repeat split; reflexivity.
Qed.

(** ** The report of [evaluate_model] *)

Ltac literal_free :=
  unfold free_of; apply (bool_decide_unpack _); by vm_compute.

Lemma column_from_dict_class {F} (report_data : list (report_row F)) :
  report_data ≠ [] →
  column "class" (DataFrame_from_dict report_data)
  = Some (map (λ r, CStr (class r)) report_data).
Proof.
  intros Hne. destruct report_data as [|r0 rd]; [done|]. clear Hne.
  unfold column. cbn [DataFrame_from_dict columns rows].
  change (list_find (λ c, c = "class")
            ["class"; "precision"; "recall"; "f1_score"; "support"])
    with (Some (0%nat, "class")).
  cbn [mbind option_bind fst]. generalize (r0 :: rd). intros l.
  induction l as [|r l IH]; [done|]. cbn. cbn in IH. by rewrite IH.
Qed.

Lemma column_from_dict_support {F} (report_data : list (report_row F)) :
  report_data ≠ [] →
  column "support" (DataFrame_from_dict report_data)
  = Some (map (λ r, CFloat (support r)) report_data).
Proof.
  intros Hne. destruct report_data as [|r0 rd]; [done|]. clear Hne.
  unfold column. cbn [DataFrame_from_dict columns rows].
  change (list_find (λ c, c = "support")
            ["class"; "precision"; "recall"; "f1_score"; "support"])
    with (Some (4%nat, "support")).
  cbn [mbind option_bind fst]. generalize (r0 :: rd). intros l.
  induction l as [|r l IH]; [done|]. cbn. cbn in IH. by rewrite IH.
Qed.

Section Evaluation.

Context {F W : Type} (L : Libraries F W).
Context (Y_true : DataFrame F) (Y_pred : list (list Z)) (names : list string).

Hypothesis names_plain : Forall plain names.
Hypothesis scores_numeric : numeric_scores L Y_true Y_pred.
Context (of_nat : nat → F).
Hypothesis counts_read : reads_counts L of_nat.

Local Abbreviation row_line :=
  (Sklearn.report_row_line (report_scores L) Y_true Y_pred names).

Lemma heading_free line : free_of LF (Sklearn.line_heading names line).
Proof.
  destruct line as [j| | | |]; cbn; try literal_free.
  destruct (names !! j) as [name|] eqn:Hname; cbn; [|apply free_of_empty].
  rewrite Forall_forall in names_plain.
  by apply names_plain, (list_elem_of_lookup_2 _ j).
Qed.

Lemma row_line_free line : free_of LF (row_line line).
Proof.
  destruct (scores_numeric line) as (p & r & f & Hs & Hnum).
  rewrite !Forall_cons in Hnum.
  destruct Hnum as ([(? & ? & ?) _] & [(? & ? & ?) _] & [(? & ? & ?) _] & _).
  unfold Sklearn.report_row_line. rewrite Hs.
  apply LF_free_row_fmt. repeat constructor; try done.
  - apply heading_free.
  - apply str_nat_plain.
Qed.

Lemma label_line_fields j name :
  names !! j = Some name →
  ∃ p r f,
    Forall (λ s, is_Some (float_of_string L s)) [p; r; f] ∧
    space_fields (row_line (Sklearn.Label j))
    = [name; p; r; f; Decimal.str_nat (Sklearn.label_support Y_true j)].
Proof.
  intros Hname.
  destruct (scores_numeric (Sklearn.Label j)) as (p & r & f & Hs & Hnum).
  exists p, r, f. rewrite !Forall_cons in Hnum.
  destruct Hnum as ([(? & ? & ?) ?] & [(? & ? & ?) ?] & [(? & ? & ?) ?] & _).
  split; [by repeat constructor|].
  assert (plain name) as (? & ? & ?).
  { rewrite Forall_forall in names_plain.
    by apply names_plain, (list_elem_of_lookup_2 _ j). }
  pose proof (str_nat_plain (Sklearn.label_support Y_true j)) as (? & ? & ?).
  unfold Sklearn.report_row_line. rewrite Hs. cbn [Sklearn.line_heading].
  rewrite Hname. apply space_fields_row_fmt. repeat constructor; done.
Qed.

(** A label line of the report reads back as a row with the name of the
    label and its support. *)
Lemma label_line_gives j :
  (j < length names)%nat →
  ∃ row,
    line_gives (float_of_string L) space_fields (row_line (Sklearn.Label j)) row ∧
    names !! j = Some (class row) ∧
    support row = of_nat (Sklearn.label_support Y_true j).
Proof.
  intros Hj. destruct (lookup_lt_is_Some_2 names j Hj) as [name Hname].
  destruct (label_line_fields j name Hname) as (p & r & f & Hnum & Hf).
  rewrite !Forall_cons in Hnum.
  destruct Hnum as ([xp Hp] & [xr Hr] & [xf Hf'] & _).
  exists {| class := name; precision := xp; recall := xr; f1_score := xf;
            support := of_nat (Sklearn.label_support Y_true j) |}.
  split; [|done].
  exists p, r, f, (Decimal.str_nat (Sklearn.label_support Y_true j)), [].
  cbn [class precision recall f1_score support].
  repeat split; first [done | apply counts_read].
Qed.

Lemma label_lines_give js :
  Forall (λ j, (j < length names)%nat) js →
  ∃ report_data,
    Forall2 (line_gives (float_of_string L) space_fields)
      (map (λ j, row_line (Sklearn.Label j)) js) report_data ∧
    Forall2 (λ j row, names !! j = Some (class row) ∧
                      support row = of_nat (Sklearn.label_support Y_true j))
      js report_data.
Proof.
  induction 1 as [|j js Hj _ (rd & IH1 & IH2)].
  - exists []. split; constructor.
  - destruct (label_line_gives j Hj) as (row & Hrow & Hname & Hsup).
    exists (row :: rd). split; constructor; done.
Qed.

Hypothesis targets : Sklearn.multilabel_targets Y_true Y_pred names = true.

Lemma targets_names : length names = length (columns Y_true) ∧ (2 ≤ length names)%nat.
Proof.
  unfold Sklearn.multilabel_targets in targets.
  repeat (apply andb_prop in targets as [targets ?]).
  repeat match goal with
         | H : bool_decide _ = true |- _ => apply bool_decide_eq_true in H
         end.
  split; [done | lia].
Qed.

Lemma report_lines_free :
  Forall (free_of LF)
    (Sklearn.report_lines (report_scores L) Y_true Y_pred names).
Proof.
  destruct targets_names as [Hlen _].
  unfold Sklearn.report_lines. repeat apply Forall_app_2.
  - constructor; [|constructor; [apply free_of_empty | constructor]].
    unfold Sklearn.head_line. lead_spaces.
    assert (LF ≠ " "%char) by done.
    repeat first [ literal_free
                 | apply free_of_rjust; [done|]
                 | apply free_of_app; split
                 | apply free_of_String; split; [done|] ].
  - apply Forall_fmap, Forall_forall. intros j _. apply row_line_free.
  - repeat constructor. apply free_of_empty.
  - repeat constructor; apply row_line_free.
  - repeat constructor. apply free_of_empty.
Qed.

Lemma report_parsed_lines :
  parsed_lines
    (join (String LF EmptyString)
       (Sklearn.report_lines (report_scores L) Y_true Y_pred names))
  = map (λ j, row_line (Sklearn.Label j)) (seq 0 (length names)).
Proof.
  destruct targets_names as [Hlen _]. unfold parsed_lines.
  rewrite split_join; [|done|apply report_lines_free].
  unfold Sklearn.report_lines. rewrite <- Hlen.
  set (label_rows := map _ (seq 0 (length names))).
  assert (Hrows : length label_rows = length names).
  { subst label_rows. by rewrite length_map, length_seq. }
  rewrite !length_app, Hrows. cbn [length app drop map].
  replace (2 + (length names + (1 + (4 + 1))) - 8)%nat with (length label_rows)
    by lia.
  apply take_app_length.
Qed.

(** What [classification_report_df] makes of the report on multilabel
    targets: a row per label, in the order of the names. *)
Lemma report_frame :
  ∃ report_data,
    (report ← Sklearn.classification_report (report_scores L) (report_otherwise L)
                Y_true Y_pred names;
     classification_report_df (float_of_string L) report)
    = Return (DataFrame_from_dict report_data) ∧
    Forall2 (λ j row, names !! j = Some (class row) ∧
                      support row = of_nat (Sklearn.label_support Y_true j))
      (seq 0 (length names)) report_data.
Proof.
  destruct (label_lines_give (seq 0 (length names))) as (rd & Hlines & Hrows).
  { apply Forall_forall. intros j Hj%elem_of_seq. lia. }
  exists rd. split; [|done].
  unfold Sklearn.classification_report. rewrite targets.
  cbn [mbind result_bind].
  apply classification_report_df_returns. exists rd. split; [done|].
  by rewrite report_parsed_lines.
Qed.

End Evaluation.

Lemma rows_by_position {A B} (P : nat → B → option A) (f : B → A) n (rd : list B) :
  Forall2 (λ j row, P j row = Some (f row)) (seq 0 n) rd →
  ∀ i, map f rd !! i = (rd !! i) ≫= P i.
Proof.
  intros H i. rewrite list_lookup_fmap.
  destruct (rd !! i) as [row|] eqn:Hrow; [|done]. cbn.
  destruct (Forall2_lookup_r _ _ _ _ _ H Hrow) as (j & Hj & HP).
  apply lookup_seq in Hj as [-> _]. symmetry. exact HP.
Qed.

Lemma report_classes {F} (names : list string) (rd : list (report_row F)) :
  Forall2 (λ j row, names !! j = Some (class row)) (seq 0 (length names)) rd →
  map class rd = names.
Proof.
  intros H. apply list_eq. intros i.
  rewrite (rows_by_position (λ j _, names !! j) class _ rd H).
  destruct (rd !! i) eqn:Hrow; [done|]. cbn. symmetry.
  apply lookup_ge_None. apply lookup_ge_None in Hrow.
  apply Forall2_length in H. rewrite length_seq in H. lia.
Qed.

Lemma report_supports {F} (g : nat → F) n (rd : list (report_row F)) :
  Forall2 (λ j row, support row = g j) (seq 0 n) rd →
  map support rd = map g (seq 0 n).
Proof.
  intros H. apply list_eq. intros i.
  rewrite (rows_by_position (λ j _, Some (g j)) support n rd);
    [|eapply Forall2_impl; [exact H|]; cbn; by intros ? ? ->].
  rewrite list_lookup_fmap. apply Forall2_length in H. rewrite length_seq in H.
  destruct (rd !! i) eqn:Hrow; cbn.
  - apply lookup_lt_Some in Hrow. rewrite lookup_seq_lt by lia. done.
  - apply lookup_ge_None in Hrow. rewrite lookup_seq_ge by lia. done.
Qed.

Section EvaluateModel.

Context {F W : Type} (L : Libraries F W).

Lemma evaluate_model_value model X_test Y_test names fs est w ps Y_pred :
  best_estimator_ model = Some (est, w) →
  best_params_ model = Some ps →
  predict L est w X_test = Return Y_pred →
  value (evaluate_model L model X_test Y_test names fs) =
  (report ← Sklearn.classification_report (report_scores L) (report_otherwise L)
              Y_test Y_pred names;
   classification_report_df (float_of_string L) report).
Proof.
  intros Hbest Hps Hpred.
  unfold evaluate_model, model_predict, classification_report.
  rewrite Hbest, Hps. rewrite !bind_run. cbn [value disk log emit lift mret M_ret].
  rewrite Hpred.
  rewrite !bind_run. cbn [value disk log emit lift mret M_ret].
  destruct (Sklearn.classification_report _ _ Y_test _ names) as [e|report];
    [done|].
  cbn [value disk log print emit mbind result_bind].
  rewrite !bind_run. cbn [value disk log emit lift mret M_ret].
  rewrite !bind_run. cbn [value disk log emit lift mret M_ret].
  by destruct (classification_report_df (float_of_string L) report).
Qed.

Lemma load_data_returns database_filepath fs X Y category_names :
  value (load_data L database_filepath fs) = Return (X, Y, category_names) →
  ∃ tables df,
    fs !! database_filepath = Some (Sqlite tables) ∧
    tables !! "Categorized_Messages" = Some df ∧
    column "message" df = Some X ∧
    Y = iloc_columns_from 4 df ∧
    category_names = drop 4 (columns df).
Proof.
  unfold load_data, read_sql_table, io, getcolumn. rewrite !bind_run.
  destruct (io_fault L _ fs); [done|]. cbn [value disk log].
  destruct (fs !! database_filepath) as [[o|tables]|] eqn:Hfs; try done.
  destruct (tables !! "Categorized_Messages") as [df|] eqn:Hdf; [|done].
  cbn [fst snd]. rewrite !bind_run. cbn [value disk log lift].
  destruct (column "message" df) as [cells|] eqn:Hc; [|done].
  cbn. intros [= <- <- <-]. by exists tables, df.
Qed.

Lemma train_test_split_returns X Y fs X_train X_test Y_train Y_test :
  value (train_test_split L X Y fs) = Return (X_train, X_test, Y_train, Y_test) →
  ∃ train test,
    shuffle_split L (length X) = Return (train, test) ∧
    X_train = take_rows train X ∧ X_test = take_rows test X ∧
    Y_train = {| columns := columns Y; rows := take_rows train (rows Y) |} ∧
    Y_test = {| columns := columns Y; rows := take_rows test (rows Y) |}.
Proof.
  unfold train_test_split. rewrite !bind_run. cbn [value disk log emit lift].
  destruct (shuffle_split L (length X)) as [e|[train test]]; [done|].
  cbn. intros [= <- <- <- <-]. by exists train, test.
Qed.

Lemma label_support_le (Y_true : DataFrame F) j :
  (Sklearn.label_support Y_true j ≤ length (rows Y_true))%nat.
Proof. unfold Sklearn.label_support. apply List.filter_length_le. Qed.

End EvaluateModel.

(** The demonstration libraries meet what the statements ask. *)
Lemma Demo_numeric_scores Y_true Y_pred : numeric_scores Demo.libs Y_true Y_pred.
Proof.
  intros line. exists "0.50", "0.50", "0.50". split; [done|].
  repeat constructor; try done; try literal_free; by eexists.
Qed.

Lemma Demo_reads_counts :
  reads_counts Demo.libs (λ n, inject_Z (Z.of_nat n)).
Proof. intros n. apply Decimal_float_str_nat. Qed.







(* ================================================================== *)
(** * Further properties of the script *)

(** ** [tokenize] *)

Lemma normalize_chars text :
  chars (normalize text)
  = map (λ c, if alnum c then lower_char c else " "%char) (chars text).
Proof. by rewrite normalize_pointwise, chars_map_chars. Qed.

Lemma chars_inj s1 s2 : chars s1 = chars s2 → s1 = s2.
Proof.
  intros H. rewrite <- (String.string_of_list_ascii_of_string s1),
    <- (String.string_of_list_ascii_of_string s2).
  unfold chars in H. by rewrite H.
Qed.

Lemma length_map_chars f s : String.length (map_chars f s) = String.length s.
Proof. induction s as [|c s IH]; [done|]. cbn. by rewrite IH. Qed.

Lemma normalize_char_idem c :
  (if alnum (if alnum c then lower_char c else " "%char)
   then lower_char (if alnum c then lower_char c else " "%char)
   else " "%char)
  = (if alnum c then lower_char c else " "%char).
Proof. each_char c; reflexivity. Qed.

Lemma normalize_idem text : normalize (normalize text) = normalize text.
Proof.
  rewrite (normalize_pointwise (normalize text)), (normalize_pointwise text).
  rewrite map_chars_compose. apply map_chars_ext, normalize_char_idem.
Qed.






(** X4.  [tokenize] returns one token per word that is no stop word: never
    more tokens than the tokenizer found words, and no token at all exactly
    when every word is a stop word. *)
Theorem tokenize_empty_iff_stop_words word_tokenize stop_words lemmatize text :
  let words := word_tokenize (normalize text) in
  let tokens := tokenize word_tokenize stop_words lemmatize text in
  (length tokens ≤ length words)%nat
  ∧ length tokens = length (List.filter (λ w, bool_decide (w ∉ stop_words)) words)
  ∧ (tokens = [] ↔ Forall (λ w, w ∈ stop_words) words).
Proof.
  intros words tokens. subst tokens. rewrite tokenize_unfold. fold words.
  rewrite length_map. unfold drop_stop_words, contains.
  assert (Hf : ∀ l : list string,
             List.filter (λ w, negb (bool_decide (w ∈ stop_words))) l
             = List.filter (λ w, bool_decide (w ∉ stop_words)) l).
  { intros l. apply List.filter_ext. intros w.
    by rewrite bool_decide_not. }
  split; [apply List.filter_length_le|]. split; [by rewrite Hf|].
  clear Hf. induction words as [|w ws IH]; cbn.
  - split; [constructor | done].
  - destruct (bool_decide (w ∈ stop_words)) eqn:E; cbn.
    + apply bool_decide_eq_true in E. rewrite IH. split.
      * by constructor.
      * by intros [_ ?]%Forall_cons.
    + apply bool_decide_eq_false in E. split; [done|].
      by intros [? _]%Forall_cons.
Qed.

(** ** [classification_report_df] *)

Lemma classification_report_df_parsed {F} (float : string → option F) report :
  classification_report_df float report
  = (report_data ← report_rows float (parsed_lines report) [];
     mret (DataFrame_from_dict report_data)).
Proof. unfold classification_report_df. cbn zeta. by rewrite slice_2_6. Qed.

Lemma report_rows_first_bad {F} (float : string → option F) good bad rest acc e :
  Forall (well_formed_line float space_fields) good →
  report_row_of_line float bad = Raise e →
  report_rows float (good ++ bad :: rest) acc = Raise e.
Proof.
  intros Hgood Hbad. revert acc.
  induction Hgood as [|line good [row Hrow] _ IH]; intros acc; cbn.
  - by rewrite Hbad.
  - apply report_row_of_line_gives in Hrow. rewrite Hrow. cbn. apply IH.
Qed.

(** X5.  The exception of a line that gives no row.  A line with fewer than
    five fields, those after the first all numeric, raises [IndexError]: so
    does a blank line.  A line whose field at position 2 to 5 is not
    numeric, the fields between the first and it being numeric, raises
    [ValueError]. *)
Theorem report_row_of_line_errors {F} (float : string → option F) line :
  let fields := space_fields line in
  ((length fields < 5)%nat →
   Forall (λ s, is_Some (float s)) (drop 1 fields) →
   report_row_of_line float line = Raise IndexError)
  ∧ (∀ i s,
       (1 ≤ i ≤ 4)%nat → fields !! i = Some s → float s = None →
       Forall (λ s', is_Some (float s')) (take (i - 1) (drop 1 fields)) →
       report_row_of_line float line
       = Raise (ValueError "could not convert string to float")).
Proof.
  intros fields. subst fields.
  unfold report_row_of_line, space_fields, py_float, getitem.
  destruct (filter_none (split " " line)) as [|c [|p [|r [|f [|s rest]]]]];
    cbn [length drop take lookup list_lookup mbind result_bind].
  all: split.
  all: try (intros Hlen; cbn in Hlen; try lia; rewrite ?Forall_cons;
            intros H; repeat (destruct H as [[? ->] H]); done).
  all: intros i x Hi Hx Hnone Hbefore;
    destruct i as [|[|[|[|[|i]]]]]; try lia; cbn in Hx; try discriminate;
    injection Hx as ->; cbn in Hbefore; rewrite ?Forall_cons in Hbefore;
    repeat (destruct Hbefore as [[? ->] Hbefore]); cbn; by rewrite Hnone.
Qed.

Lemma report_row_of_line_errors_witness :
  let blank := "   " in
  let worded := "aid related 0.50 0.50 0.50 3" in
  ((length (space_fields blank) < 5)%nat
   ∧ report_row_of_line Decimal.float blank = Raise IndexError)
  ∧ (space_fields worded !! 1%nat = Some "related"
     ∧ Decimal.float "related" = None
     ∧ report_row_of_line Decimal.float worded
       = Raise (ValueError "could not convert string to float")).
Proof.
  intros blank worded. split.
  - assert (Hlen : (length (space_fields blank) < 5)%nat) by (vm_compute; lia).
    assert (Hnum : Forall (λ s, is_Some (Decimal.float s))
                     (drop 1 (space_fields blank))) by constructor.
    split; [exact Hlen|].
    exact (proj1 (report_row_of_line_errors Decimal.float blank) Hlen Hnum).
  - assert (Hx : space_fields worded !! 1%nat = Some "related") by reflexivity.
    assert (Hn : Decimal.float "related" = None) by reflexivity.
    assert (Hi : (1 ≤ 1 ≤ 4)%nat) by lia.
    assert (Hb : Forall (λ s', is_Some (Decimal.float s'))
                   (take (1 - 1) (drop 1 (space_fields worded))))
      by constructor.
    split; [exact Hx|]. split; [exact Hn|].
    exact (proj2 (report_row_of_line_errors Decimal.float worded) 1%nat
             "related" Hi Hx Hn Hb).
Defined.

(** X6.  The first line read that gives no row decides the outcome: its
    exception is the one [classification_report_df] raises, the lines after
    it are not looked at, and no frame is returned for the rows before
    it. *)
Theorem classification_report_df_first_bad_line {F} (float : string → option F)
    report good bad rest e :
  parsed_lines report = good ++ bad :: rest →
  Forall (well_formed_line float space_fields) good →
  report_row_of_line float bad = Raise e →
  classification_report_df float report = Raise e.
Proof.
  intros Hlines Hgood Hbad. rewrite classification_report_df_parsed, Hlines.
  by rewrite (report_rows_first_bad float good bad rest [] e Hgood Hbad).
Qed.

Lemma classification_report_df_first_bad_line_witness :
  let report :=
    join (String LF "")
      ["head"; ""; "water 0.50 1.00 0.67 2"; ""; "food x"; ""; ""; ""; "";
       ""; ""] in
  parsed_lines report = ["water 0.50 1.00 0.67 2"] ++ "" :: ["food x"]
  ∧ Forall (well_formed_line Decimal.float space_fields)
      ["water 0.50 1.00 0.67 2"]
  ∧ report_row_of_line Decimal.float "" = Raise IndexError
  ∧ classification_report_df Decimal.float report = Raise IndexError.
Proof.
  intros report.
  assert (Hl : parsed_lines report
               = ["water 0.50 1.00 0.67 2"] ++ "" :: ["food x"])
    by reflexivity.
  assert (Hg : Forall (well_formed_line Decimal.float space_fields)
                 ["water 0.50 1.00 0.67 2"]).
  { repeat constructor.
    exists {| class := "water"; precision := 50 # 100; recall := 100 # 100;
              f1_score := 67 # 100; support := inject_Z 2 |}.
    by exists "0.50", "1.00", "0.67", "2", []. }
  assert (Hb : report_row_of_line Decimal.float "" = Raise IndexError)
    by reflexivity.
  split; [exact Hl|]. split; [exact Hg|]. split; [exact Hb|].
  exact (classification_report_df_first_bad_line Decimal.float report _ _ _ _
           Hl Hg Hb).
Defined.

Lemma parsed_lines_middle h1 h2 middle tail :
  length tail = 6%nat →
  Forall (free_of LF) (h1 :: h2 :: middle ++ tail) →
  parsed_lines (join (String LF "") (h1 :: h2 :: middle ++ tail)) = middle.
Proof.
  intros Htail Hfree. unfold parsed_lines. rewrite split_join by done.
  cbn [length drop]. rewrite length_app, Htail.
  replace (S (S (length middle + 6)) - 8)%nat with (length middle) by lia.
  apply take_app_length.
Qed.

(** X7.  The first two and the last six lines of a report are skipped
    whatever they hold: two reports with the same lines in between give the
    same outcome. *)
Theorem classification_report_df_skips_head_and_tail {F}
    (float : string → option F) h1 h2 h1' h2' middle tail tail' :
  length tail = 6%nat → length tail' = 6%nat →
  Forall (free_of LF) (h1 :: h2 :: middle ++ tail) →
  Forall (free_of LF) (h1' :: h2' :: middle ++ tail') →
  classification_report_df float (join (String LF "") (h1 :: h2 :: middle ++ tail))
  = classification_report_df float
      (join (String LF "") (h1' :: h2' :: middle ++ tail')).
Proof.
  intros Ht Ht' Hf Hf'. rewrite !classification_report_df_parsed.
  by rewrite !parsed_lines_middle.
Qed.

Lemma classification_report_df_skips_head_and_tail_witness :
  let middle := ["water 0.50 1.00 0.67 2"] in
  let tail := [""; "micro"; "macro"; "weighted"; "samples"; ""] in
  let tail' := ["1 2 3 4 5"; "x"; ""; "avg / total"; "y"; "z"] in
  length tail = 6%nat ∧ length tail' = 6%nat
  ∧ classification_report_df Decimal.float
      (join (String LF "") ("head" :: "" :: middle ++ tail))
    = classification_report_df Decimal.float
        (join (String LF "") ("a 1 2 3 4" :: "b" :: middle ++ tail')).
Proof.
  intros middle tail tail'. split; [reflexivity|]. split; [reflexivity|].
  apply classification_report_df_skips_head_and_tail; try reflexivity;
    repeat constructor; unfold free_of; apply (bool_decide_unpack _);
    by vm_compute.
Defined.

Lemma append_empty s : s +:+ "" = s.
Proof.
  induction s as [|c s IH]; [done|].
  change (String c (s +:+ "") = String c s). by rewrite IH.
Qed.

Lemma space_fields_trail x n : space_fields (x +:+ Sklearn.spaces n) = space_fields x.
Proof.
  destruct n as [|n].
  - cbn. by rewrite append_empty.
  - change (Sklearn.spaces (S n)) with (String " " (Sklearn.spaces n)).
    rewrite space_fields_app.
    replace (Sklearn.spaces n) with (Sklearn.spaces n +:+ "")
      by apply append_empty.
    rewrite space_fields_spaces. apply app_nil_r.
Qed.

(** X8.  Only the fields of a line count, not its spacing: spaces before
    the first field, after the last one, and further spaces where there is a
    space already do not change what a line gives. *)
Theorem report_row_of_line_spacing {F} (float : string → option F) a b n k m :
  report_row_of_line float
    (Sklearn.spaces n +:+ a +:+ Sklearn.spaces (S k) +:+ b +:+ Sklearn.spaces m)
  = report_row_of_line float (a +:+ " " +:+ b).
Proof.
  assert (Hfields : ∀ l1 l2, space_fields l1 = space_fields l2 →
                    report_row_of_line float l1 = report_row_of_line float l2).
  { intros l1 l2 H. unfold report_row_of_line. unfold space_fields in H.
    cbn zeta. by rewrite H. }
  apply Hfields. rewrite space_fields_spaces.
  change (Sklearn.spaces (S k) +:+ b +:+ Sklearn.spaces m)
    with (String " " (Sklearn.spaces k +:+ b +:+ Sklearn.spaces m)).
  change (" " +:+ b) with (String " " b).
  rewrite !space_fields_app, space_fields_spaces. by rewrite space_fields_trail.
Qed.

(** X9.  When [classification_report_df] returns on a report of [n] lines,
    the frame has [n - 8] rows; with more than eight lines its columns are
    class, precision, recall, f1_score and support in this order, and with
    eight lines or fewer it has no columns at all. *)
Theorem classification_report_df_shape {F} (float : string → option F) report df :
  classification_report_df float report = Return df →
  length (rows df) = (length (split LF report) - 8)%nat
  ∧ columns df
    = if decide (length (split LF report) ≤ 8)%nat then []
      else ["class"; "precision"; "recall"; "f1_score"; "support"].
Proof.
  intros (rd & -> & Hrd)%classification_report_df_returns.
  apply Forall2_length in Hrd.
  assert (Hlen : length (parsed_lines report)
                 = (length (split LF report) - 8)%nat).
  { unfold parsed_lines. rewrite length_take, length_drop. lia. }
  rewrite Hlen in Hrd. destruct rd as [|row rd]; cbn in *.
  - split; [done|]. case_decide; [done | lia].
  - rewrite length_map. split; [done|]. case_decide; [lia | done].
Qed.

Lemma classification_report_df_shape_witness :
  let report :=
    join (String LF "")
      ["head"; ""; "water 0.50 1.00 0.67 2"; "food 1.00 0.50 0.67 4";
       ""; "micro"; "macro"; "weighted"; "samples"; ""] in
  ∃ df, classification_report_df Decimal.float report = Return df
        ∧ length (rows df) = 2%nat
        ∧ columns df = ["class"; "precision"; "recall"; "f1_score"; "support"].
Proof.
  intros report. eexists. split; [vm_compute; reflexivity|].
  exact (classification_report_df_shape Decimal.float report _ eq_refl).
Defined.

(** ** [load_data] *)

Section LoadData.

Context {F W : Type} (L : Libraries F W).

Lemma load_data_log database_filepath fs :
  log (load_data L database_filepath fs)
  = [ReadSqlTable database_filepath "Categorized_Messages"].
Proof.
  unfold load_data, read_sql_table, io. rewrite !bind_run.
  destruct (io_fault L _ fs); [done|]. cbn [value disk log].
  destruct (fs !! database_filepath) as [[o|tables]|]; try done.
  destruct (tables !! "Categorized_Messages"); [|done].
  cbn [fst snd]. rewrite !bind_run. cbn [value disk log lift].
  by destruct (getcolumn _ _).
Qed.

Lemma load_data_disk database_filepath fs :
  is_Some (fs !! database_filepath) →
  disk (load_data L database_filepath fs) = fs.
Proof.
  intros [f Hf]. unfold load_data, read_sql_table, io. rewrite !bind_run.
  destruct (io_fault L _ fs); [done|]. cbn [value disk log]. rewrite Hf.
  destruct f as [o|tables]; [done|].
  destruct (tables !! "Categorized_Messages"); [|done].
  cbn [fst snd]. rewrite !bind_run. cbn [value disk log lift].
  by destruct (getcolumn _ _).
Qed.

End LoadData.

(** X10.  What [load_data] returns is aligned: there are as many messages
    as rows of labels, the i-th message is the cell of the column [message]
    in row i of the table, the i-th row of labels is that row without its
    first four cells, and the category names are the names of the columns
    of the labels. *)
Theorem load_data_aligned {F W} (L : Libraries F W)
    database_filepath fs X Y category_names :
  value (load_data L database_filepath fs) = Return (X, Y, category_names) →
  length X = length (rows Y)
  ∧ category_names = columns Y
  ∧ ∃ tables df i,
      fs !! database_filepath = Some (Sqlite tables)
      ∧ tables !! "Categorized_Messages" = Some df
      ∧ columns df !! i = Some "message"
      ∧ Forall2 (λ row x, row !! i = Some x) (rows df) X
      ∧ rows Y = map (drop 4) (rows df)
      ∧ columns Y = drop 4 (columns df).
Proof.
  intros (tables & df & Hfs & Hdf & Hcol & -> & ->)%load_data_returns.
  unfold column in Hcol.
  destruct (list_find (λ c, c = "message") (columns df)) as [[i c]|] eqn:Hfind;
    [|done].
  cbn in Hcol. apply mapM_Some in Hcol.
  apply list_find_Some in Hfind as (Hi & -> & _).
  split; [|split; [done|]].
  - cbn. rewrite length_map. symmetry. by eapply Forall2_length.
  - by exists tables, df, i.
Qed.

Lemma load_data_aligned_witness :
  ∃ X Y,
    value (load_data Demo.libs "data/DisasterResponse.db" Demo.disk)
      = Return (X, Y, ["water"; "food"])
    ∧ length X = length (rows Y) ∧ length X = 10%nat.
Proof.
  eexists _, _.
  assert (H : value (load_data Demo.libs "data/DisasterResponse.db" Demo.disk)
              = Return (default [] (column "message" Demo.messages),
                        iloc_columns_from 4 Demo.messages, ["water"; "food"]))
    by (vm_compute; reflexivity).
  split; [exact H|].
  split; [exact (proj1 (load_data_aligned Demo.libs _ _ _ _ _ H))|].
  reflexivity.
Defined.

(** X11.  [load_data] on a path that holds a database makes one read and
    changes no file, whether it returns or raises.  Unless the environment
    fails the read, a database without the table [Categorized_Messages]
    gives a [ValueError], and a table without the column [message] gives
    [KeyError('message')]. *)
Theorem load_data_errors {F W} (L : Libraries F W) database_filepath fs tables :
  fs !! database_filepath = Some (Sqlite tables) →
  disk (load_data L database_filepath fs) = fs
  ∧ log (load_data L database_filepath fs)
    = [ReadSqlTable database_filepath "Categorized_Messages"]
  ∧ (io_fault L (ReadSqlTable database_filepath "Categorized_Messages") fs
       = None →
     (tables !! "Categorized_Messages" = None →
      ∃ msg, value (load_data L database_filepath fs) = Raise (ValueError msg))
     ∧ (∀ df, tables !! "Categorized_Messages" = Some df →
              "message" ∉ columns df →
              value (load_data L database_filepath fs)
              = Raise (KeyError "message"))).
Proof.
  intros Hfs. split; [by apply load_data_disk|]. split; [apply load_data_log|].
  intros Hfault. unfold load_data, read_sql_table, io, getcolumn.
  rewrite !bind_run, Hfault. cbn [value disk log]. rewrite Hfs. split.
  - intros ->. by eexists.
  - intros df -> Hno. cbn [fst snd]. rewrite !bind_run. cbn [value disk log lift].
    unfold column.
    assert (list_find (λ c, c = "message") (columns df) = None) as ->; [|done].
    apply list_find_None, Forall_forall. by intros c Hc ->.
Qed.

Lemma load_data_errors_witness :
  let path := "data/DisasterResponse.db" in
  let fs := Demo.disk_of Demo.messages_untitled in
  fs !! path = Some (Sqlite {[ "Categorized_Messages" := Demo.messages_untitled ]})
  ∧ ("message" ∉ columns Demo.messages_untitled)
  ∧ value (load_data Demo.libs path fs) = Raise (KeyError "message")
  ∧ disk (load_data Demo.libs path fs) = fs.
Proof.
  intros path fs.
  assert (Hfs : fs !! path
                = Some (Sqlite {[ "Categorized_Messages"
                                    := Demo.messages_untitled ]}))
    by reflexivity.
  assert (Hno : "message" ∉ columns Demo.messages_untitled).
  { apply (bool_decide_unpack _). by vm_compute. }
  destruct (load_data_errors Demo.libs path fs _ Hfs) as (Hdisk & _ & Herr).
  split; [exact Hfs|]. split; [exact Hno|]. split; [|exact Hdisk].
  exact (proj2 (Herr eq_refl) Demo.messages_untitled eq_refl Hno).
Defined.

(** ** Runs of [main] that fail, and what a run that returns leaves *)

Section MainRuns.

Context {F W : Type} (L : Libraries F W).

Lemma keeps_files_bind {A B} (m : M F W A) (k : A → M F W B) :
  keeps_files m → (∀ a, keeps_files (k a)) → keeps_files (m ≫= k).
Proof.
  intros Hm Hk fs. rewrite bind_run. destruct (value (m fs)); cbn.
  - apply Hm.
  - by rewrite Hk, Hm.
Qed.

Ltac files_step :=
  first [ by intros ?
        | apply keeps_files_bind; [|intros] ].

Lemma train_test_split_keeps_files X Y : keeps_files (train_test_split L X Y).
Proof.
  unfold train_test_split.
  repeat first [files_step
               | match goal with a : (_ * _)%type |- _ => destruct a end].
Qed.

Lemma fit_keeps_files model X Y : keeps_files (fit L model X Y).
Proof.
  unfold fit.
  repeat first [files_step
               | match goal with a : (_ * _)%type |- _ => destruct a end].
Qed.

Lemma evaluate_model_keeps_files model X_test Y_test names :
  keeps_files (evaluate_model L model X_test Y_test names).
Proof.
  unfold evaluate_model, model_predict, classification_report.
  apply keeps_files_bind.
  { destruct (best_estimator_ model) as [[est w]|]; repeat files_step. }
  intros Y_pred. do 4 (apply keeps_files_bind; [repeat files_step|intros]).
  destruct (best_params_ model); repeat files_step.
Qed.

Lemma save_model_log_fitted model path fs est w :
  best_estimator_ model = Some (est, w) →
  log (save_model L model path fs) = [PickleDump path (ObjPipeline est w)].
Proof.
  intros Hb. unfold save_model, pickle_dump, io. rewrite Hb.
  by destruct (io_fault L _ fs).
Qed.

Ltac find_here :=
  repeat match goal with
         | |- _ ∨ _ => first [left; by apply list_elem_of_here | right]
         end;
  try apply list_elem_of_here.

Lemma main_stops_before_save prog database_filepath model_filepath fs :
  wp (main L [prog; database_filepath; model_filepath]) fs (λ r fs' l,
    (∀ p o, PickleDump p o ∉ l) →
    fs' = disk (load_data L database_filepath fs) ∧ ∃ e, r = Raise e).
Proof.
  unfold main.
  apply wp_bind; unfold wp at 1; cbn [value disk log print emit].
  apply wp_bind; unfold wp at 1.
  set (fs1 := disk (load_data L database_filepath fs)).
  destruct (value (load_data L database_filepath fs))
    as [e|[[X Y] category_names]]; [intros _; split; [done | by eexists]|].
  apply wp_bind; unfold wp at 1. rewrite train_test_split_keeps_files.
  destruct (value (train_test_split L X Y fs1))
    as [e|[[[X_train X_test] Y_train] Y_test]];
    [intros _; split; [done | by eexists]|].
  apply wp_bind; unfold wp at 1; cbn [value disk log print emit].
  apply wp_bind; unfold wp at 1; cbn [value disk log print emit].
  apply wp_bind; unfold wp at 1. rewrite fit_keeps_files.
  destruct (value (fit L (build_model L) X_train Y_train fs1))
    as [e|model] eqn:Hfit; [intros _; split; [done | by eexists]|].
  apply fit_returns in Hfit as (i & w & ps & est & _ & _ & _ & ->).
  apply wp_bind; unfold wp at 1; cbn [value disk log print emit].
  apply wp_bind; unfold wp at 1. rewrite evaluate_model_keeps_files.
  destruct (value (evaluate_model L _ X_test Y_test category_names fs1))
    as [e|df_report]; [intros _; split; [done | by eexists]|].
  apply wp_bind; unfold wp at 1; cbn [value disk log print emit].
  assert (Hdump : ∀ (r : result ()) (fs' : gmap string (file F W))
                      (l : list (event F W)),
            PickleDump model_filepath (ObjPipeline est w) ∈ l →
            (∀ p o, PickleDump p o ∉ l) →
            fs' = fs1 ∧ ∃ e, r = Raise e).
  { intros r fs' l Hin Hno. by destruct (Hno _ _ Hin). }
  pose proof (save_model_log_fitted (fitted (build_model L) est w ps)
                model_filepath fs1 est w eq_refl) as Hlog.
  apply wp_bind; unfold wp at 1.
  destruct (value (save_model L _ model_filepath fs1)) as [e|[]].
  - apply Hdump. rewrite Hlog, !elem_of_app. find_here.
  - unfold wp. apply Hdump. rewrite Hlog, !elem_of_app. find_here.
Qed.

Lemma evaluate_model_returns model X_test Y_test names fs df_report :
  value (evaluate_model L model X_test Y_test names fs) = Return df_report →
  ∃ report,
    Print report ∈ log (evaluate_model L model X_test Y_test names fs) ∧
    classification_report_df (float_of_string L) report = Return df_report.
Proof.
  unfold evaluate_model, model_predict, classification_report.
  destruct (best_estimator_ model) as [[est w]|]; [|done].
  rewrite !bind_run. cbn [value disk log emit lift mret M_ret].
  destruct (predict L est w X_test) as [e|Y_pred]; [done|].
  rewrite !bind_run. cbn [value disk log emit lift mret M_ret].
  destruct (Sklearn.classification_report _ _ Y_test Y_pred names)
    as [e|report]; [done|].
  cbn [value disk log print emit mbind result_bind].
  rewrite !bind_run. cbn [value disk log emit lift mret M_ret].
  rewrite !bind_run. cbn [value disk log emit lift mret M_ret].
  destruct (classification_report_df (float_of_string L) report) as [e|df] eqn:Hdf;
    [done|].
  destruct (best_params_ model) as [ps|]; [|done].
  rewrite !bind_run. cbn [value disk log print emit lift mret M_ret].
  intros [= <-]. exists report. split; [|done].
  rewrite !elem_of_app. find_here.
Qed.

Lemma main_returns_inv prog database_filepath model_filepath fs :
  wp (main L [prog; database_filepath; model_filepath]) fs (λ r fs' l,
    r = Return () →
    ∃ X_test Y_test names model df_report fse fsr,
      value (evaluate_model L model X_test Y_test names fse) = Return df_report ∧
      (∀ e, e ∈ log (evaluate_model L model X_test Y_test names fse) → e ∈ l) ∧
      value (save_report L df_report fsr) = Return () ∧
      fs' = disk (save_report L df_report fsr)).
Proof.
  unfold main.
  apply wp_bind; unfold wp at 1; cbn [value disk log print emit].
  apply wp_bind; unfold wp at 1.
  destruct (value (load_data L database_filepath fs))
    as [e|[[X Y] category_names]]; [done|].
  apply wp_bind; unfold wp at 1.
  destruct (value (train_test_split L X Y _))
    as [e|[[[X_train X_test] Y_train] Y_test]]; [done|].
  apply wp_bind; unfold wp at 1; cbn [value disk log print emit].
  apply wp_bind; unfold wp at 1; cbn [value disk log print emit].
  apply wp_bind; unfold wp at 1.
  destruct (value (fit L (build_model L) X_train Y_train _)) as [e|model];
    [done|].
  apply wp_bind; unfold wp at 1; cbn [value disk log print emit].
  apply wp_bind; unfold wp at 1.
  match goal with
  | |- match value (evaluate_model L model X_test Y_test category_names ?f)
       with _ => _ end => set (fse := f)
  end.
  destruct (value (evaluate_model L model X_test Y_test category_names fse))
    as [e|df_report] eqn:Heval; [done|].
  apply wp_bind; unfold wp at 1; cbn [value disk log print emit].
  apply wp_bind; unfold wp at 1.
  destruct (value (save_model L model model_filepath _)) as [e|[]]; [done|].
  apply wp_bind; unfold wp at 1; cbn [value disk log print emit].
  apply wp_bind; unfold wp at 1.
  match goal with
  | |- match value (save_report L df_report ?f) with _ => _ end =>
      set (fsr := f)
  end.
  destruct (value (save_report L df_report fsr)) as [e|[]] eqn:Hrep; [done|].
  unfold wp, print, emit. cbn [value disk log]. intros _.
  exists X_test, Y_test, category_names, model, df_report, fse, fsr.
  split; [done|]. split; [|done].
  intros e He. rewrite !elem_of_app. tauto.
Qed.

End MainRuns.

(** X12.  A run that never gets to dump the model raises, and leaves the
    files as [load_data] left them: unchanged when the path of the database
    holds a file.  A model that was trained is lost when a later step
    before [save_model] raises, such as reading the report back. *)
Theorem main_failure_before_save {F W} (L : Libraries F W)
    prog database_filepath model_filepath fs :
  let o := main L [prog; database_filepath; model_filepath] fs in
  (∀ p obj, PickleDump p obj ∉ log o) →
  (∃ e, value o = Raise e)
  ∧ disk o = disk (load_data L database_filepath fs)
  ∧ (is_Some (fs !! database_filepath) → disk o = fs).
Proof.
  intros o Hno.
  destruct (main_stops_before_save L prog database_filepath model_filepath
              fs Hno) as [Hdisk Hraise].
  split; [done|]. split; [done|].
  intros Hsome. subst o. by rewrite Hdisk, load_data_disk.
Qed.

Lemma main_failure_before_save_witness :
  let fs := Demo.disk_of Demo.messages_worded in
  let o := main Demo.libs Demo.argv fs in
  (∀ p obj, PickleDump p obj ∉ log o)
  ∧ Fit ∈ log o
  ∧ value o = Raise (ValueError "could not convert string to float")
  ∧ disk o = fs.
Proof.
  intros fs o.
  assert (Hno : ∀ p obj, PickleDump p obj ∉ log o).
  { intros p obj Hin. apply list_elem_of_In in Hin. vm_compute in Hin.
    intuition discriminate. }
  destruct (main_failure_before_save Demo.libs "train_classifier.py"
              "data/DisasterResponse.db" "classifier.pkl" fs Hno)
    as (_ & _ & Hdisk).
  split; [exact Hno|].
  split; [apply (list_elem_of_lookup_2 _ 5%nat); reflexivity|].
  split; [vm_compute; reflexivity|].
  apply Hdisk. by eexists.
Defined.

(** X13.  With the path of the report database as the model path a run
    cannot return: once it gets to write the report it has replaced the
    database by the pickled model, and the write raises. *)
Theorem main_model_path_clash {F W} (L : Libraries F W)
    prog database_filepath fs :
  let path := "data/DisasterResponse.db" in
  let o := main L [prog; database_filepath; path] fs in
  value o ≠ Return ()
  ∧ ∀ d t df,
      ToSql d t df ∈ log o →
      (∃ e, value o = Raise e)
      ∧ ∃ est w, disk o !! path = Some (Pickle (ObjPipeline est w)).
Proof.
  intros path o.
  assert (Hreached : ∀ d t df,
            ToSql d t df ∈ log o →
            (∃ e, value o = Raise e)
            ∧ ∃ est w, disk o !! path = Some (Pickle (ObjPipeline est w))).
  { intros d t df Hin.
    destruct (main_reaches_report L prog database_filepath path fs _ _ _ Hin)
      as (fs1 & l1 & _ & _ & _ & w & _ & est & df_report
          & _ & _ & _ & _ & Hval & Hdisk & _).
    fold o in Hval, Hdisk.
    destruct (value (save_report L df_report _)) as [e|[]] eqn:Hrep.
    - split; [by exists e|]. exists est, w.
      rewrite Hdisk, (save_report_raises L _ _ _ Hrep).
      apply lookup_insert_eq.
    - apply save_report_returns in Hrep as [_ Hnp]. exfalso.
      eapply Hnp. apply lookup_insert_eq. }
  split; [|exact Hreached].
  intros Hret.
  destruct (main_return_reaches_report L prog database_filepath path fs Hret)
    as [df Hin].
  destruct (Hreached _ _ _ Hin) as [[e He] _]. fold o in Hret. congruence.
Qed.

Lemma main_model_path_clash_witness :
  let path := "data/DisasterResponse.db" in
  let o := main Demo.libs Demo.argv_clash Demo.disk in
  ToSql path "df_report" Demo.report ∈ log o
  ∧ value o = Raise (DatabaseError "file is not a database")
  ∧ ∃ est w, disk o !! path = Some (Pickle (ObjPipeline est w)).
Proof.
  intros path o.
  assert (Hin : ToSql path "df_report" Demo.report ∈ log o).
  { apply (list_elem_of_lookup_2 _ 15%nat). vm_compute. reflexivity. }
  split; [exact Hin|]. split; [vm_compute; reflexivity|].
  exact (proj2 (proj2 (main_model_path_clash Demo.libs "train_classifier.py"
                         "data/DisasterResponse.db" Demo.disk)
                  _ _ _ Hin)).
Defined.

(** X14.  Whatever the search answers, the pipeline a fit of [build_model]
    leaves is the pipeline built, with no cap on the vocabulary or with the
    cap 10000, and the best parameters name that choice.  So the pipeline in
    the model file of a run that returns differs from the one built at most
    in this cap. *)
Theorem fit_build_model_cap {F W} (L : Libraries F W) :
  (∀ X Y fs model,
     value (fit L (build_model L) X Y fs) = Return model →
     ∃ cap v w,
       (cap = None ∧ v = PNone ∨ cap = Some 10000 ∧ v = PInt 10000) ∧
       best_estimator_ model = Some (pipeline_with_max_features L cap, w) ∧
       best_params_ model = Some [("text_pipeline__vect__max_features", v)] ∧
       estimator model = estimator (build_model L) ∧
       param_grid model = param_grid (build_model L))
  ∧ (∀ prog database_filepath model_filepath fs,
       value (main L [prog; database_filepath; model_filepath] fs) = Return () →
       ∃ cap w,
         (cap = None ∨ cap = Some 10000) ∧
         disk (main L [prog; database_filepath; model_filepath] fs)
           !! model_filepath
         = Some (Pickle (ObjPipeline (pipeline_with_max_features L cap) w))).
Proof.
  assert (Hcand : ∀ i ps est,
            Sklearn.ParameterGrid (param_grid (build_model L)) !! i = Some ps →
            Sklearn.set_params (estimator (build_model L)) ps = Return est →
            ∃ cap v,
              (cap = None ∧ v = PNone ∨ cap = Some 10000 ∧ v = PInt 10000) ∧
              est = pipeline_with_max_features L cap ∧
              ps = [("text_pipeline__vect__max_features", v)]).
  { intros i ps est Hps Hest.
    change (Sklearn.ParameterGrid (param_grid (build_model L)))
      with [[("text_pipeline__vect__max_features", PNone)];
            [("text_pipeline__vect__max_features", PInt 10000)]] in Hps.
    destruct i as [|[|i]]; [| |done]; injection Hps as <-.
    - change (Return (pipeline_with_max_features L None) = Return est) in Hest.
      injection Hest as <-. exists None, PNone. by intuition.
    - change (Return (pipeline_with_max_features L (Some 10000)) = Return est)
        in Hest.
      injection Hest as <-. exists (Some 10000), (PInt 10000). by intuition. }
  split.
  - intros X Y fs model
      (i & w & ps & est & _ & Hps & Hest & ->)%fit_returns.
    destruct (Hcand i ps est Hps Hest) as (cap & v & Hor & -> & ->).
    by exists cap, v, w.
  - intros prog db mp fs Hret.
    destruct (main_return_reaches_report L prog db mp fs Hret) as [df Hin].
    destruct (main_reaches_report L prog db mp fs _ _ _ Hin)
      as (fs1 & l1 & _ & _ & i & w & ps & est & df_report
          & _ & Hps & Hest & _ & Hval & Hdisk & _).
    destruct (Hcand i ps est Hps Hest) as (cap & v & Hor & -> & ->).
    exists cap, w. split; [destruct Hor as [[-> _]|[-> _]]; auto|].
    rewrite Hret in Hval. symmetry in Hval. rewrite Hdisk.
    rewrite (save_report_disk L _ _ Hval).
    apply save_report_returns in Hval as [_ Hnp].
    destruct (decide (mp = "data/DisasterResponse.db")) as [->|Hne].
    + exfalso. eapply Hnp. apply lookup_insert_eq.
    + rewrite lookup_insert_ne by done. apply lookup_insert_eq.
Qed.

Lemma fit_build_model_cap_witness :
  value (main Demo.libs Demo.argv Demo.disk) = Return ()
  ∧ ∃ cap w,
      (cap = None ∨ cap = Some 10000) ∧
      disk (main Demo.libs Demo.argv Demo.disk) !! "classifier.pkl"
      = Some (Pickle (ObjPipeline (pipeline_with_max_features Demo.libs cap) w)).
Proof.
  assert (Hret : value (main Demo.libs Demo.argv Demo.disk) = Return ())
    by (vm_compute; reflexivity).
  split; [exact Hret|].
  exact (proj2 (fit_build_model_cap Demo.libs) "train_classifier.py"
           "data/DisasterResponse.db" "classifier.pkl" Demo.disk Hret).
Defined.

(** X15.  The last report written is the one kept: after two calls of
    [save_report] that return, the database is as if only the second report
    had been written, and writing the same report again changes nothing. *)
Theorem save_report_last_wins {F W} (L : Libraries F W) first second fs :
  let path := "data/DisasterResponse.db" in
  let fs1 := disk (save_report L first fs) in
  value (save_report L first fs) = Return () →
  value (save_report L second fs1) = Return () →
  disk (save_report L second fs1)
  = <[path := Sqlite (<["df_report" := second]> (tables_at fs path))]> fs
  ∧ (first = second → disk (save_report L second fs1) = fs1).
Proof.
  intros path fs1 H1 H2.
  assert (Hfs1 : fs1 = <[path := Sqlite (<["df_report" := first]>
                                            (tables_at fs path))]> fs)
    by apply (save_report_disk L _ _ H1).
  assert (Hboth : disk (save_report L second fs1)
                  = <[path := Sqlite (<["df_report" := second]>
                                        (tables_at fs path))]> fs).
  { rewrite (save_report_disk L _ _ H2). fold path. rewrite Hfs1.
    unfold tables_at at 1. rewrite lookup_insert_eq.
    by rewrite !insert_insert_eq. }
  split; [exact Hboth|]. intros ->. by rewrite Hboth, Hfs1.
Qed.

Lemma save_report_last_wins_witness :
  let path := "data/DisasterResponse.db" in
  let first : DataFrame Q := {| columns := ["class"]; rows := [[CStr "water"]] |} in
  let fs1 := disk (save_report Demo.libs first Demo.disk_two_databases) in
  value (save_report Demo.libs first Demo.disk_two_databases) = Return ()
  ∧ value (save_report Demo.libs Demo.report fs1) = Return ()
  ∧ disk (save_report Demo.libs Demo.report fs1)
    = <[path := Sqlite (<["df_report" := Demo.report]>
                          (tables_at Demo.disk_two_databases path))]>
        Demo.disk_two_databases.
Proof.
  intros path first fs1.
  assert (H1 : value (save_report Demo.libs first Demo.disk_two_databases)
               = Return ()) by (vm_compute; reflexivity).
  assert (H2 : value (save_report Demo.libs Demo.report fs1) = Return ())
    by (vm_compute; reflexivity).
  split; [exact H1|]. split; [exact H2|].
  exact (proj1 (save_report_last_wins Demo.libs first Demo.report
                  Demo.disk_two_databases H1 H2)).
Defined.

(** X16.  In a run that returns, the table [df_report] of the report
    database is the frame read back from a report text that the run
    printed. *)
Theorem main_stores_printed_report {F W} (L : Libraries F W)
    prog database_filepath model_filepath fs :
  let o := main L [prog; database_filepath; model_filepath] fs in
  value o = Return () →
  ∃ report df_report,
    Print report ∈ log o
    ∧ classification_report_df (float_of_string L) report = Return df_report
    ∧ tables_at (disk o) "data/DisasterResponse.db" !! "df_report"
      = Some df_report.
Proof.
  intros o Hret.
  destruct (main_returns_inv L prog database_filepath model_filepath fs Hret)
    as (X_test & Y_test & names & model & df_report & fse & fsr
        & Heval & Hlog & Hrep & Hdisk).
  destruct (evaluate_model_returns L _ _ _ _ _ _ Heval) as (report & Hin & Hdf).
  exists report, df_report. split; [by apply Hlog|]. split; [done|].
  subst o. rewrite Hdisk, (save_report_disk L _ _ Hrep).
  unfold tables_at at 1. rewrite lookup_insert_eq. apply lookup_insert_eq.
Qed.

Lemma main_stores_printed_report_witness :
  let o := main Demo.libs Demo.argv Demo.disk in
  value o = Return ()
  ∧ ∃ report df_report,
      Print report ∈ log o
      ∧ classification_report_df Decimal.float report = Return df_report
      ∧ tables_at (disk o) "data/DisasterResponse.db" !! "df_report"
        = Some df_report.
Proof.
  intros o.
  assert (Hret : value o = Return ()) by (vm_compute; reflexivity).
  split; [exact Hret|].
  exact (main_stores_printed_report Demo.libs "train_classifier.py"
           "data/DisasterResponse.db" "classifier.pkl" Demo.disk Hret).
Defined.
